(** * kas_checkout: the configuration facade and the repo-setup entry step

    A shallow embedding of [src/cmd/bake-kas/scripts/kas_checkout.py]:
    the [Config] class (construction from a colon-separated file list, the
    repo accessors and the target / machine / header / environment /
    multiconfig queries) and the [InitSetupRepos] command.

    Python values are embedded as the inductive [value] (no floats); a Python
    [dict] is an association list with [str] keys, in insertion order;
    exceptions are explicit in the [result] type; methods that assign to
    [self] return the updated object; the process environment [os.environ] is
    a finite map that every query receives as an argument.  A Rocq [string]
    stands for a Python [str] whose characters are the code points below 256.
    The [kas] package and [os.path] are outside this file and enter as
    interfaces. *)

From Stdlib Require Import ZArith Ascii String DecimalString.
From stdpp Require Import base option list sorting gmap sets strings.

Open Scope Z_scope.
Open Scope stdpp_scope.

(** ** Python values and exceptions *)

#[warnings="-register-all"]
Inductive value : Type :=
| VNone
| VBool (b : bool)
| VInt (z : Z)
| VStr (s : string)
| VList (l : list value)
| VDict (d : list (string * value)).

(** A [dict] with [str] keys, in insertion order.  Python dictionaries hold
    each key once: [dict_wf]. *)
Abbreviation dict := (list (string * value)).

Definition dict_wf (d : dict) : Prop := NoDup d.*1.

Inductive exn : Type :=
| IncludeException (msg : string)
| KeyError
| IndexError
| TypeError
| AttributeError.

Inductive result (A : Type) : Type :=
| Ok (a : A)
| Raise (e : exn).
Arguments Ok {A} a.
Arguments Raise {A} e.

#[global] Instance result_ret : MRet result := λ A a, Ok a.
#[global] Instance result_bind : MBind result := λ A B f m,
  match m with
  | Ok a => f a
  | Raise e => Raise e
  end.

(** ** Built-in operations of the Python runtime *)

Module Py.

(** [bool(v)], the test behind [if v:] and [v or w]. *)
Definition truthy (v : value) : bool :=
  match v with
  | VNone => false
  | VBool b => b
  | VInt z => negb (z =? 0)
  | VStr s => negb (String.eqb s "")
  | VList l => match l with [] => false | _ => true end
  | VDict d => match d with [] => false | _ => true end
  end.

(** [isinstance(v, str)] *)
Definition is_str (v : value) : bool :=
  match v with VStr _ => true | _ => false end.

(** Lists and dictionaries cannot be dictionary keys. *)
Definition hashable (v : value) : bool :=
  match v with VList _ | VDict _ => false | _ => true end.

(** [k1 == k2] on hashable values; [True == 1] and [False == 0]. *)
Definition key_eqb (k1 k2 : value) : bool :=
  match k1, k2 with
  | VNone, VNone => true
  | VStr s1, VStr s2 => String.eqb s1 s2
  | VBool b1, VBool b2 => Bool.eqb b1 b2
  | VInt z1, VInt z2 => z1 =? z2
  | VBool b, VInt z | VInt z, VBool b => z =? (if b then 1 else 0)
  | _, _ => false
  end.

Fixpoint dict_lookup (k : string) (d : dict) : option value :=
  match d with
  | [] => None
  | (k', v) :: d' => if String.eqb k k' then Some v else dict_lookup k d'
  end.

(** [d[k] = v]: an existing key keeps its position. *)
Fixpoint setitem (k : string) (v : value) (d : dict) : dict :=
  match d with
  | [] => [(k, v)]
  | (k', v') :: d' =>
      if String.eqb k k' then (k', v) :: d' else (k', v') :: setitem k v d'
  end.

(** [d.get(k, default)] on a dictionary *)
Definition dict_get (d : dict) (k : string) (dflt : value) : value :=
  default dflt (dict_lookup k d).

(** [v.get(k, default)] on any value: only a dictionary has the method, and
    the key is hashed before it is looked up. *)
Definition get (v k dflt : value) : result value :=
  match v with
  | VDict d =>
      match k with
      | VStr s => Ok (dict_get d s dflt)
      | VList _ | VDict _ => Raise TypeError
      | _ => Ok dflt
      end
  | _ => Raise AttributeError
  end.

(** [l[i]] on a sequence, with Python's negative indices. *)
Definition seq_index {A} (l : list A) (i : Z) : result A :=
  let n := Z.of_nat (length l) in
  let j := if i <? 0 then i + n else i in
  if (0 <=? j) && (j <? n)
  then match l !! Z.to_nat j with Some x => Ok x | None => Raise IndexError end
  else Raise IndexError.

Definition chars (s : string) : list value :=
  (λ c, VStr (String c "")) <$> list_ascii_of_string s.

(** [v[k]] *)
Definition getitem (v k : value) : result value :=
  match v with
  | VDict d =>
      match k with
      | VStr s => match dict_lookup s d with Some x => Ok x | None => Raise KeyError end
      | VList _ | VDict _ => Raise TypeError
      | _ => Raise KeyError
      end
  | VList l =>
      match k with
      | VInt i => seq_index l i
      | VBool b => seq_index l (if b then 1 else 0)
      | _ => Raise TypeError
      end
  | VStr s =>
      match k with
      | VInt i => seq_index (chars s) i
      | VBool b => seq_index (chars s) (if b then 1 else 0)
      | _ => Raise TypeError
      end
  | _ => Raise TypeError
  end.

(** [for x in v]: a dictionary yields its keys, a string its characters. *)
Definition iter (v : value) : result (list value) :=
  match v with
  | VDict d => Ok (VStr <$> d.*1)
  | VList l => Ok l
  | VStr s => Ok (chars s)
  | _ => Raise TypeError
  end.

(** [v.items()] *)
Definition items (v : value) : result dict :=
  match v with
  | VDict d => Ok d
  | _ => Raise AttributeError
  end.

(** *** Strings *)

Definition nl : string := String "010"%char "".

(** [c.isspace()] for a character below U+0100. *)
Definition isspace (c : ascii) : bool :=
  let n := nat_of_ascii c in
  ((9 <=? n) && (n <=? 13) || (28 <=? n) && (n <=? 32)
   || (n =? 133) || (n =? 160))%nat.

(** A string that is empty or holds whitespace only. *)
Definition all_space (s : string) : Prop :=
  Forall (λ c, isspace c = true) (list_ascii_of_string s).

(** [s.split()]: the maximal runs of non-whitespace characters. *)
Fixpoint split (s : string) : list string :=
  match s with
  | EmptyString => []
  | String c s' =>
      if isspace c then split s'
      else match s' with
           | EmptyString => [String c ""]
           | String c' _ =>
               if isspace c' then String c "" :: split s'
               else match split s' with
                    | w :: ws => String c w :: ws
                    | [] => [String c ""]
                    end
           end
  end.

(** [s.split(sep)] for a one-character separator: never empty. *)
Fixpoint split_on (sep : ascii) (s : string) : list string :=
  match s with
  | EmptyString => [""]
  | String c s' =>
      if Ascii.eqb c sep then "" :: split_on sep s'
      else match split_on sep s' with
           | w :: ws => String c w :: ws
           | [] => [String c ""]
           end
  end.

(** [s.startswith(p)] *)
Definition startswith (s p : string) : bool := String.prefix p s.

(** [sep.join(l)] *)
Definition join (sep : string) (l : list string) : string := String.concat sep l.

(** [str(z)] for an integer *)
Definition str_int (z : Z) : string :=
  DecimalString.NilZero.string_of_int (Z.to_int z).

End Py.

(** ** Interfaces of the code outside this file *)

(** [os.path]: both functions depend on the platform and, for [abspath], on
    the working directory of the process. *)
Class OsPath := {
  abspath : string → string;
  dirname : string → string;
}.

(** What the Python runtime leaves open: [repr], which [str] uses to print
    lists and dictionaries, and the order in which a [set] of strings is
    iterated.  The order is a function of the insertions made; it enumerates
    every inserted string once. *)
Class PyRuntime := {
  repr : value → string;
  set_iter : list string → list string;
  set_iter_NoDup : ∀ l, NoDup (set_iter l);
  set_iter_elem_of : ∀ l x, x ∈ set_iter l ↔ x ∈ l;
}.

(** The [kas] package: [kas.repos.Repo] and [kas.includehandler.IncludeHandler].
    A path that may be [None] is an [option string]. *)
Class KasLib := {
  Repo : Type;
  IncludeHandler : Type;
  (** [Repo.get_root_path(path, fallback)]: the enclosing version-control
      root of [path]; outside every root it is [None] without [fallback]. *)
  Repo_get_root_path : string → bool → option string;
  (** [Repo.factory(name, repo_config, repo_defaults, repo_fallback_path,
      repo_overrides)] *)
  Repo_factory : value → value → value → option string → value → result Repo;
  (** [IncludeHandler(top_files, top_repo_path, use_lock)] *)
  IncludeHandler_new : list string → option string → bool → IncludeHandler;
  get_top_repo_path : IncludeHandler → option string;
  (** [handler.get_config(repos=...)]: the merged configuration and the names
      of the repositories that are still missing. *)
  handler_get_config : IncludeHandler → value → result (dict * list string);
}.

(** [os.environ] *)
Abbreviation environ := (gmap string string).

(** ** The [Config] class *)

Section Config.
Context {OP : OsPath} {RT : PyRuntime} {K : KasLib}.

(** A dictionary of [Repo] instances keyed by the names as iterated. *)
Abbreviation repo_table := (list (value * Repo)).

Record Config : Type := mkConfig {
  _override_target : value;
  _override_task : value;
  _config : dict;
  filenames : list string;
  handler : IncludeHandler;
  repo_dict : repo_table;
}.

Definition set_config (self : Config) (c : dict) : Config :=
  mkConfig (_override_target self) (_override_task self) c
           (filenames self) (handler self) (repo_dict self).

Definition set_repo_dict (self : Config) (rd : repo_table) : Config :=
  mkConfig (_override_target self) (_override_task self) (_config self)
           (filenames self) (handler self) rd.

(** [table[name] = repo] in a dictionary comprehension *)
Fixpoint repo_table_set (name : value) (r : Repo) (t : repo_table) : repo_table :=
  match t with
  | [] => [(name, r)]
  | (n, r') :: t' =>
      if Py.key_eqb name n then (n, r) :: t' else (n, r') :: repo_table_set name r t'
  end.

Definition get_build_system (self : Config) : value :=
  Py.dict_get (_config self) "build_system" (VStr "").

Definition find_missing_repos (self : Config) (repo_paths : value)
  : result (Config * list string) :=
  '(config, missing_repo_names) ← handler_get_config (handler self) repo_paths;
  mret (set_config self config, missing_repo_names).

Definition get_config (self : Config) : dict := _config self.

Definition get_repos_config (self : Config) : value :=
  Py.dict_get (_config self) "repos" (VDict []).

(** Lines 111-113 of [get_repo]. *)
Definition repo_defaults_of (self : Config) : result value :=
  Py.get (Py.dict_get (_config self) "defaults" (VDict [])) (VStr "repos") (VDict []).

Definition overrides_of (self : Config) (name : value) : result value :=
  repos ← Py.get (Py.dict_get (_config self) "overrides" (VDict []))
                 (VStr "repos") (VDict []);
  Py.get repos name (VDict []).

Definition get_repo (self : Config) (name : value) : result Repo :=
  repo_defaults ← repo_defaults_of self;
  overrides ← overrides_of self name;
  entry ← Py.getitem (get_repos_config self) name;
  let config := if Py.truthy entry then entry else VDict [] in
  let top_repo_path := get_top_repo_path (handler self) in
  Repo_factory name config repo_defaults top_repo_path overrides.

(** The comprehension of [_get_repo_dict], one name after the other. *)
Fixpoint collect_repos (self : Config) (names : list value) (acc : repo_table)
  : result repo_table :=
  match names with
  | [] => mret acc
  | name :: names' =>
      r ← get_repo self name;
      if Py.hashable name
      then collect_repos self names' (repo_table_set name r acc)
      else Raise TypeError
  end.

Definition _get_repo_dict (self : Config) : result repo_table :=
  names ← Py.iter (get_repos_config self);
  collect_repos self names [].

Definition get_repos (self : Config) : result (Config * list Repo) :=
  rd ← _get_repo_dict self;
  mret (set_repo_dict self rd, rd.*2).

Definition mixed_roots_msg : string :=
  "All concatenated config files must belong to the same repository or all must be outside of versioning control".

(** [Config.__init__] *)
Definition Config_init (filename : string) (target task : value) (update : bool)
  : result Config :=
  let filenames := abspath <$> Py.split_on ":" filename in
  match filenames with
  | [] => Raise IndexError
  | first :: _ =>
      let top_repo_path := Repo_get_root_path (dirname first) true in
      let repo_paths :=
        (λ configfile, Repo_get_root_path (dirname configfile) false) <$> filenames in
      if bool_decide (1 < size (list_to_set repo_paths : gset (option string)))%nat
      then Raise (IncludeException mixed_roots_msg)
      else
        let handler := IncludeHandler_new filenames top_repo_path (negb update) in
        let self := mkConfig target task [] filenames handler [] in
        rd ← _get_repo_dict self;
        mret (set_repo_dict self rd)
  end.

(** The files of a colon-separated list and the root each resolves to,
    [None] outside every version-control root. *)
Definition config_files (filename : string) : list string :=
  abspath <$> Py.split_on ":" filename.

Definition root_of (configfile : string) : option string :=
  Repo_get_root_path (dirname configfile) false.

Definition several_roots (files : list string) : Prop :=
  ∃ f g r r', f ∈ files ∧ g ∈ files ∧
              root_of f = Some r ∧ root_of g = Some r' ∧ r ≠ r'.

Definition mixed_membership (files : list string) : Prop :=
  ∃ f g r, f ∈ files ∧ g ∈ files ∧ root_of f = Some r ∧ root_of g = None.

Definition one_root (files : list string) : Prop :=
  ∃ r, Forall (λ f, root_of f = Some r) files.

Definition all_outside (files : list string) : Prop :=
  Forall (λ f, root_of f = None) files.

(** [os.environ.get(k, default)] *)
Definition environ_get (env : environ) (k : string) (dflt : value) : value :=
  match env !! k with
  | Some s => VStr s
  | None => dflt
  end.

Definition get_bitbake_targets (self : Config) (env : environ) : value :=
  if Py.truthy (_override_target self) then _override_target self
  else
    let environ_targets :=
      filter (λ i, Py.truthy (VStr i))
             (Py.split (default "" (env !! "KAS_TARGET"))) in
    if Py.truthy (VList (VStr <$> environ_targets))
    then VList (VStr <$> environ_targets)
    else
      let target := Py.dict_get (_config self) "target" (VStr "core-image-minimal") in
      if Py.is_str target then VList [target] else target.

(** What lines 141-144 of [get_bitbake_targets] return: the target of the
    configuration, or the default. *)
Definition config_targets (self : Config) : value :=
  let target := Py.dict_get (_config self) "target" (VStr "core-image-minimal") in
  if Py.is_str target then VList [target] else target.

Definition get_bitbake_task (self : Config) (env : environ) : value :=
  if Py.truthy (_override_task self) then _override_task self
  else environ_get env "KAS_TASK" (Py.dict_get (_config self) "task" (VStr "build")).

(** [str(v)], as used by [format] *)
Definition py_str (v : value) : string :=
  match v with
  | VNone => "None"
  | VBool true => "True"
  | VBool false => "False"
  | VInt z => Py.str_int z
  | VStr s => s
  | _ => repr v
  end.

(** ['# {}\n{}\n'.format(key, value)] *)
Definition header_entry (kv : string * value) : string :=
  "# " +:+ kv.1 +:+ Py.nl +:+ py_str kv.2 +:+ Py.nl.

(** The order of [sorted] on the items of a dictionary: the keys differ, so
    the first components decide. *)
Definition item_le (kv1 kv2 : string * value) : Prop := String.le kv1.1 kv2.1.

#[global] Instance item_le_dec : RelDecision item_le.
Proof. intros kv1 kv2. unfold item_le. apply _. Defined.

Definition sorted_items (d : dict) : dict := merge_sort item_le d.

Definition _get_conf_header (self : Config) (header_name : string) : result string :=
  entries ← Py.items (Py.dict_get (_config self) header_name (VDict []));
  mret (fold_left (λ header kv, header +:+ header_entry kv) (sorted_items entries) "").

Definition get_bblayers_conf_header (self : Config) : result string :=
  _get_conf_header self "bblayers_conf_header".

Definition get_local_conf_header (self : Config) : result string :=
  _get_conf_header self "local_conf_header".

Definition get_machine (self : Config) (env : environ) : value :=
  environ_get env "KAS_MACHINE" (Py.dict_get (_config self) "machine" (VStr "qemux86-64")).

Definition get_distro (self : Config) (env : environ) : value :=
  environ_get env "KAS_DISTRO" (Py.dict_get (_config self) "distro" (VStr "poky")).

(** The comprehension of [get_environment]; [os.environ] only takes [str]
    keys. *)
Fixpoint collect_environment (declared : value) (env : environ)
    (vars : list value) (acc : dict) : result dict :=
  match vars with
  | [] => mret acc
  | var :: vars' =>
      dflt ← Py.getitem declared var;
      match var with
      | VStr k =>
          collect_environment declared env vars' (Py.setitem k (environ_get env k dflt) acc)
      | _ => Raise TypeError
      end
  end.

Definition get_environment (self : Config) (env : environ) : result dict :=
  let declared := Py.dict_get (_config self) "env" (VDict []) in
  vars ← Py.iter declared;
  collect_environment declared env vars [].

(** The loop of [get_multiconfig]; [added] lists the arguments of
    [multiconfigs.add] so far, latest first. *)
Fixpoint scan_multiconfig (targets : list value) (added : list string)
  : result (list string) :=
  match targets with
  | [] => mret added
  | VStr target :: targets' =>
      if Py.startswith target "multiconfig:" || Py.startswith target "mc:"
      then match Py.split_on ":" target with
           | _ :: field :: _ => scan_multiconfig targets' (field :: added)
           | _ => Raise IndexError
           end
      else scan_multiconfig targets' added
  | _ :: _ => Raise AttributeError
  end.

Definition get_multiconfig (self : Config) (env : environ) : result string :=
  targets ← Py.iter (get_bitbake_targets self env);
  multiconfigs ← scan_multiconfig targets [];
  mret (Py.join " " (set_iter (reverse multiconfigs))).

(** ** The [InitSetupRepos] command *)

Record ExecutionContext : Type := mkContext {
  config : Config;
  missing_repo_names : option (list string);
  missing_repo_names_old : option (list string);
}.

Definition InitSetupRepos_execute (ctx : ExecutionContext) : result ExecutionContext :=
  '(config', missing) ← find_missing_repos (config ctx) (VDict []);
  mret (mkContext config' (Some missing) None).

(** ** [kas_checkout]: the task list *)

(** The commands of the task list; all but [InitSetupRepos] come from
    [kas.libcmds].  A [Loop] holds the commands added to it. *)
#[warnings="-register-all"]
Inductive command : Type :=
| SetupDir
| InitSetupRepos
| Loop (name : string) (command_list : list command)
| SetupReposStep
| FinishSetupRepos
| ReposApplyPatches
| SetupEnviron
| WriteBBConfig.

Definition repo_loop : command := Loop "repo_setup_loop" [SetupReposStep].

Definition setup_commands : list command :=
  [SetupDir; InitSetupRepos; repo_loop; FinishSetupRepos; ReposApplyPatches;
   SetupEnviron; WriteBBConfig].

Section Checkout.
(** [cmd.execute(ctx)] for the commands of [kas.libcmds] *)
Variable library_execute : command → ExecutionContext → result ExecutionContext.

Definition execute (cmd : command) (ctx : ExecutionContext) : result ExecutionContext :=
  match cmd with
  | InitSetupRepos => InitSetupRepos_execute ctx
  | _ => library_execute cmd ctx
  end.

(** [for cmd in commands: cmd.execute(ctx)]; logging is left out. *)
Fixpoint run_commands (commands : list command) (ctx : ExecutionContext)
  : result ExecutionContext :=
  match commands with
  | [] => mret ctx
  | cmd :: commands' => ctx' ← execute cmd ctx; run_commands commands' ctx'
  end.

Definition kas_checkout (ctx : ExecutionContext) : result ExecutionContext :=
  run_commands setup_commands ctx.

End Checkout.

End Config.


(** The multiconfig named by a target: the second colon-delimited field of a
    target that starts with [multiconfig:] or [mc:]. *)
Definition multiconfig_field (target : string) : option string :=
  if Py.startswith target "multiconfig:" || Py.startswith target "mc:"
  then Py.split_on ":" target !! 1%nat
  else None.

(** The value of a field under the three layers, the later layer first. *)
Definition layered (overrides own defaults : dict) (field : string) : option value :=
  match Py.dict_lookup field overrides with
  | Some v => Some v
  | None =>
      match Py.dict_lookup field own with
      | Some v => Some v
      | None => Py.dict_lookup field defaults
      end
  end.

(** ** The convergence loop, as far as the first pass is concerned *)

Inductive loop_state : Type := Fetching | Converged | Failed.

(** Modelled from the spec: the transitions out of Resolving of the
    convergence loop ([Loop] and [SetupReposStep] of [kas.libcmds], not under
    src/).  Fetching: the current set is non-empty.  Converged: it is empty.
    Failed: it is identical to, or a superset of, the set of the previous
    pass; [previous] is [None] while there has been no previous pass. *)
Inductive transition (current : list string) (previous : option (list string))
  : loop_state → Prop :=
| to_Fetching : current ≠ [] → transition current previous Fetching
| to_Converged : current = [] → transition current previous Converged
| to_Failed old :
    previous = Some old → old ⊆ current → transition current previous Failed.

(** ** Repository handles *)

(** Modelled from the spec: the repository handle that [Repo.factory]
    ([kas.repos], not under src/) builds: the name and the merged field set,
    obtained by applying [defaults.repos], then the repo's own config, then
    [overrides.repos.<name>], a later layer winning. *)
Record RepoHandle : Type := mkRepoHandle {
  rh_name : value;
  rh_fallback_path : option string;
  rh_fields : dict;
}.

Definition apply_layer (base layer : dict) : dict :=
  fold_left (λ acc kv, Py.setitem kv.1 kv.2 acc) layer base.

(** Modelled from the spec: [Repo.factory] ([kas.repos], not under src/).
    The three field tables are read with [.get], which only a dictionary
    has. *)
Definition spec_Repo_factory (name repo_config repo_defaults : value)
    (repo_fallback_path : option string) (repo_overrides : value)
  : result RepoHandle :=
  match repo_config, repo_defaults, repo_overrides with
  | VDict own, VDict defaults, VDict overrides =>
      Ok (mkRepoHandle name repo_fallback_path
            (apply_layer (apply_layer defaults own) overrides))
  | _, _, _ => Raise AttributeError
  end.

(** Any [kas] library, with the handles of the spec in place of [Repo]. *)
Definition with_spec_repos (K : KasLib) : KasLib := {|
  Repo := RepoHandle;
  IncludeHandler := @IncludeHandler K;
  Repo_get_root_path := @Repo_get_root_path K;
  Repo_factory := spec_Repo_factory;
  IncludeHandler_new := @IncludeHandler_new K;
  get_top_repo_path := @get_top_repo_path K;
  handler_get_config := @handler_get_config K;
|}.

(** ** A small concrete world, for the examples *)

Module Sample.

(** Paths are taken as absolute; the directory of a file is its path without
    the last component. *)
Definition os_path : OsPath := {|
  abspath := λ p, p;
  dirname := λ p, Py.join "/" (removelast (Py.split_on "/" p));
|}.

Program Definition runtime : PyRuntime := {|
  repr := λ _, "<object>";
  set_iter := λ l, remove_dups l;
|}.
Next Obligation. intros l. apply NoDup_remove_dups. Qed.
Next Obligation. intros l x. apply elem_of_remove_dups. Qed.

(** What the sample include handler resolves to. *)
Definition merged : dict :=
  [("defaults", VDict [("repos", VDict [("branch", VStr "main")])]);
   ("repos", VDict [("foo", VNone);
                    ("meta-custom", VDict [("url", VStr "https://example.org/meta-custom.git");
                                           ("branch", VStr "next")])]);
   ("overrides", VDict [("repos", VDict [("foo", VDict [("branch", VStr "release")])])])].

(** Two checkouts, under [/a] and under [/b]; everything else is outside
    version control.  The include handler is the triple it was built from; it
    resolves to [merged] and misses meta-custom until it is given a path. *)
Definition kas : KasLib := {|
  Repo := value * value * value * option string * value;
  IncludeHandler := list string * option string * bool;
  Repo_get_root_path := λ path fallback,
    if String.prefix "/a" path then Some "/a"
    else if String.prefix "/b" path then Some "/b"
    else if fallback then Some path else None;
  Repo_factory := λ name config defaults top overrides,
    Ok (name, config, defaults, top, overrides);
  IncludeHandler_new := λ files top lock, (files, top, lock);
  get_top_repo_path := λ h, h.1.2;
  handler_get_config := λ h repos,
    match repos with
    | VDict [] => Ok (merged, ["meta-custom"])
    | _ => Ok (merged, [])
    end;
|}.

(** A configuration object over [merged], with the given override target. *)
Definition config_of (target : value) (merged : dict) : Config (K := kas) :=
  mkConfig target VNone merged ["/a/kas.yml"]
           (@IncludeHandler_new kas ["/a/kas.yml"] (Some "/a") true) [].

(** A configuration with the three layers of repository fields: the type
    comes from the defaults only, the url from the entry only, and the branch
    of the defaults is overridden. *)
Definition layers : dict :=
  [("defaults", VDict [("repos", VDict [("branch", VStr "main");
                                        ("type", VStr "git")])]);
   ("repos", VDict [("foo", VDict [("url", VStr "https://example.org/foo.git")])]);
   ("overrides", VDict [("repos", VDict [("foo", VDict [("branch", VStr "release")])])])].

(** The same world with an include handler that cannot resolve. *)
Definition failing_kas : KasLib := {|
  Repo := @Repo kas;
  IncludeHandler := @IncludeHandler kas;
  Repo_get_root_path := @Repo_get_root_path kas;
  Repo_factory := @Repo_factory kas;
  IncludeHandler_new := @IncludeHandler_new kas;
  get_top_repo_path := @get_top_repo_path kas;
  handler_get_config := λ h repos, Raise (IncludeException "include cycle");
|}.

End Sample.

(** * Properties *)

Example split_ex :
  Py.split (" a  bc" +:+ Py.nl +:+ "d ") = ["a"; "bc"; "d"].
Proof. reflexivity. Qed.

Example split_on_ex :
  Py.split_on ":" "mc:qemu:core-image-sato" = ["mc"; "qemu"; "core-image-sato"]
  ∧ Py.split_on ":" "" = [""] ∧ Py.split_on ":" ":" = [""; ""].
Proof. repeat split; reflexivity. Qed.

Example str_int_ex : Py.str_int (-12) = "-12" ∧ Py.str_int 0 = "0".
Proof. split; reflexivity. Qed.

Example getitem_ex :
  Py.getitem (VList [VInt 7; VInt 8]) (VInt (-1)) = Ok (VInt 8)
  ∧ Py.getitem (VList [VInt 7; VInt 8]) (VInt 2) = Raise IndexError.
Proof. split; reflexivity. Qed.


(** ** Facts about the runtime operations *)

Ltac unfold_result :=
  unfold mbind, mret, result_bind, result_ret in *.

Lemma split_on_nonempty sep s : Py.split_on sep s ≠ [].
Proof.
  destruct s as [|c s]; simpl; [done|].
  destruct (Ascii.eqb c sep); [done|].
  by destruct (Py.split_on sep s).
Qed.

(** [sep.join(s.split(sep)) == s] *)
Lemma join_split_on sep s : Py.join (String sep "") (Py.split_on sep s) = s.
Proof.
  unfold Py.join. induction s as [|c s IH]; simpl; [done|].
  destruct (Ascii.eqb_spec c sep) as [->|Hne].
  - pose proof (split_on_nonempty sep s) as Hn.
    destruct (Py.split_on sep s) as [|w ws]; [done|].
    simpl in *. by rewrite IH.
  - pose proof (split_on_nonempty sep s) as Hn.
    destruct (Py.split_on sep s) as [|w ws]; [done|].
    simpl in *. destruct ws; simpl in *; by rewrite <- IH.
Qed.

(** A set built from a list has more than one element exactly when two
    entries of the list differ. *)
Lemma size_list_to_set_gt_1 `{Countable A} (l : list A) :
  (1 < size (list_to_set l : gset A))%nat ↔ ∃ x y, x ∈ l ∧ y ∈ l ∧ x ≠ y.
Proof.
  split.
  - destruct l as [|x l]; [rewrite list_to_set_nil, size_empty; lia|].
    intros Hsz. destruct (decide (Forall (x =.) l)) as [Hall|Hex].
    + exfalso. assert (list_to_set (x :: l) ⊆@{gset A} {[ x ]}) as Hsub.
      { intros y. rewrite elem_of_list_to_set, elem_of_singleton, elem_of_cons.
        intros [->|Hy]; [done|]. rewrite Forall_forall in Hall. symmetry. eauto. }
      apply subseteq_size in Hsub. rewrite size_singleton in Hsub. lia.
    + apply not_Forall_Exists in Hex; [|apply _].
      apply Exists_exists in Hex as (y & Hy & Hne). exists x, y.
      split_and!; [left|by right|done].
  - intros (x & y & Hx & Hy & Hne).
    assert ({[ x ]} ∪ {[ y ]} ⊆@{gset A} list_to_set l) as Hsub.
    { intros z. rewrite elem_of_union, !elem_of_singleton, elem_of_list_to_set.
      by intros [->| ->]. }
    apply subseteq_size in Hsub.
    rewrite size_union, !size_singleton in Hsub; [lia|].
    intros z. rewrite !elem_of_singleton. congruence.
Qed.

(** ** Construction *)

Section Construction.
Context {OP : OsPath} {RT : PyRuntime} {K : KasLib}.

(** With an empty configuration there is no repository to build. *)
Lemma get_repo_dict_empty target task files h :
  _get_repo_dict (mkConfig target task [] files h []) = Ok [].
Proof. reflexivity. Qed.

Lemma config_files_nonempty filename : config_files filename ≠ [].
Proof.
  unfold config_files. pose proof (split_on_nonempty ":" filename).
  by destruct (Py.split_on ":" filename).
Qed.

(** The test of the constructor, in terms of the roots of the files. *)
Lemma roots_differ_iff (files : list string) :
  (1 < size (list_to_set (root_of <$> files) : gset (option string)))%nat
  ↔ several_roots files ∨ mixed_membership files.
Proof.
  rewrite size_list_to_set_gt_1. split.
  - intros (x & y & Hx & Hy & Hne).
    apply list_elem_of_fmap in Hx as (f & -> & Hf).
    apply list_elem_of_fmap in Hy as (g & -> & Hg).
    destruct (root_of f) as [r|] eqn:Ef, (root_of g) as [r'|] eqn:Eg.
    + left. exists f, g, r, r'. split_and!; try done. congruence.
    + right. by exists f, g, r.
    + right. by exists g, f, r'.
    + done.
  - intros [(f & g & r & r' & Hf & Hg & Ef & Eg & Hne)|(f & g & r & Hf & Hg & Ef & Eg)];
      exists (root_of f), (root_of g);
      (split_and!; [by apply list_elem_of_fmap_2..|congruence]).
Qed.

Lemma same_root_not_differ (files : list string) :
  one_root files ∨ all_outside files →
  ¬ (several_roots files ∨ mixed_membership files).
Proof.
  intros Hsame Hdiff.
  assert (∃ r, ∀ f, f ∈ files → root_of f = r) as [r Hr].
  { destruct Hsame as [[r Hr]|Hr]; [exists (Some r)|exists None];
      by apply Forall_forall. }
  destruct Hdiff as [(f & g & a & b & Hf & Hg & Ef & Eg & Hne)|(f & g & a & Hf & Hg & Ef & Eg)];
    rewrite (Hr f Hf) in Ef; rewrite (Hr g Hg) in Eg; congruence.
Qed.

(** C1: constructing a [Config] raises the configuration exception, and
    yields no object, whenever the files of the colon-separated list resolve
    to more than one version-control root, or some resolve inside a root and
    others outside every root; when all files share one root, or all are
    outside every root, construction succeeds with a [Config] over those
    files. *)
Theorem Config_init_roots filename target task update :
  let files := config_files filename in
  (several_roots files ∨ mixed_membership files →
     Config_init filename target task update
     = Raise (IncludeException mixed_roots_msg))
  ∧ (one_root files ∨ all_outside files →
     ∃ self, Config_init filename target task update = Ok self
             ∧ filenames self = files ∧ _config self = []).
Proof.
  intros files. pose proof (config_files_nonempty filename) as Hne.
  pose proof (roots_differ_iff files) as Hiff.
  unfold Config_init. fold (config_files filename). fold files.
  destruct files as [|first rest] eqn:Efiles; [done|]. rewrite <- Efiles in *.
  change ((λ configfile, Repo_get_root_path (dirname configfile) false) <$> files)
    with (root_of <$> files).
  split.
  - intros Hdiff. apply Hiff in Hdiff. by rewrite bool_decide_eq_true_2.
  - intros Hsame. apply same_root_not_differ in Hsame.
    rewrite bool_decide_eq_false_2 by (by rewrite Hiff).
    rewrite get_repo_dict_empty. unfold_result. eauto.
Qed.

End Construction.

Lemma Config_init_roots_witness :
  Config_init (OP := Sample.os_path) (K := Sample.kas) "/a/kas.yml:/b/extra.yml" VNone VNone false
    = Raise (IncludeException mixed_roots_msg)
  ∧ (∃ self, Config_init (OP := Sample.os_path) (K := Sample.kas) "/a/kas.yml:/a/sub/extra.yml"
               VNone VNone false = Ok self
             ∧ filenames self = ["/a/kas.yml"; "/a/sub/extra.yml"]
             ∧ _config self = []).
Proof.
  split.
  - apply (Config_init_roots (OP := Sample.os_path) (K := Sample.kas)).
    left. exists "/a/kas.yml", "/b/extra.yml", "/a", "/b".
    split_and!; [by left|by right; left|reflexivity|reflexivity|discriminate].
  - apply (Config_init_roots (OP := Sample.os_path) (K := Sample.kas)
             "/a/kas.yml:/a/sub/extra.yml").
    left. exists "/a". by repeat constructor.
Defined.

(** ** The first pass of the convergence loop *)

Section FirstPass.
Context {OP : OsPath} {RT : PyRuntime} {K : KasLib}.

Lemma no_failure_without_previous (current : list string) (st : loop_state) :
  transition current None st → st = Fetching ∨ st = Converged.
Proof. destruct 1; auto; discriminate. Qed.

Lemma first_transition_exists (current : list string) previous :
  transition current previous Fetching ∨ transition current previous Converged.
Proof.
  destruct current as [|name rest]; [right|left]; by constructor.
Qed.

(** C2: after [InitSetupRepos] has run, the previous-pass field is [None],
    which no set of missing repositories equals, and the current field holds
    the set that the include handler just computed from the configuration;
    hence the first pass of the loop cannot take the transition to Failed: it
    goes to Fetching or to Converged.  The command fails only when the
    resolution itself fails. *)
Theorem InitSetupRepos_first_pass (ctx : ExecutionContext) :
  match handler_get_config (handler (config ctx)) (VDict []) with
  | Ok (merged, missing) =>
      ∃ ctx', InitSetupRepos_execute ctx = Ok ctx'
        ∧ missing_repo_names_old ctx' = None
        ∧ (∀ names : list string, missing_repo_names_old ctx' ≠ Some names)
        ∧ missing_repo_names ctx' = Some missing
        ∧ _config (config ctx') = merged
        ∧ ¬ transition missing (missing_repo_names_old ctx') Failed
        ∧ (transition missing (missing_repo_names_old ctx') Fetching
           ∨ transition missing (missing_repo_names_old ctx') Converged)
  | Raise e => InitSetupRepos_execute ctx = Raise e
  end.
Proof.
  unfold InitSetupRepos_execute, find_missing_repos. unfold_result.
  destruct (handler_get_config _ _) as [[merged missing]|e]; [|done].
  eexists. split; [done|]. simpl. split_and!; try done.
  - intros Hf. by destruct (no_failure_without_previous _ _ Hf).
  - apply first_transition_exists.
Qed.

(** X18: in [kas_checkout] the loop is entered right after [InitSetupRepos]:
    whatever the context held before, the loop starts from a context without a
    previous set and with the missing names of the resolution just made. *)
Lemma kas_checkout_loop_entry library_execute (ctx ctx1 : ExecutionContext)
    (merged : dict) (missing : list string) :
  library_execute SetupDir ctx = Ok ctx1 →
  handler_get_config (handler (config ctx1)) (VDict []) = Ok (merged, missing) →
  ∃ ctx2,
    missing_repo_names_old ctx2 = None
    ∧ missing_repo_names ctx2 = Some missing
    ∧ kas_checkout library_execute ctx
      = (ctx3 ← library_execute repo_loop ctx2;
         run_commands library_execute
           [FinishSetupRepos; ReposApplyPatches; SetupEnviron; WriteBBConfig] ctx3).
Proof.
  intros Hdir Hget. unfold kas_checkout, setup_commands.
  cbn [run_commands execute]. rewrite Hdir. unfold_result.
  unfold InitSetupRepos_execute, find_missing_repos. unfold_result.
  rewrite Hget. eexists (mkContext _ (Some missing) None).
  split_and!; reflexivity.
Qed.

End FirstPass.

(** ** Targets, task, machine *)

Lemma split_tokens_nonempty s : Forall (λ w, w ≠ "") (Py.split s).
Proof.
  induction s as [|c s IH]; simpl; [constructor|].
  destruct (Py.isspace c); [done|].
  destruct s as [|c' s']; [by repeat constructor|].
  destruct (Py.isspace c'); [by constructor|].
  destruct (Py.split (String c' s')) as [|w ws]; [by repeat constructor|].
  inversion IH; subst. by constructor.
Qed.

(** [s.split()] finds no token exactly in a string of whitespace. *)
Lemma split_nil_iff s : Py.split s = [] ↔ Py.all_space s.
Proof.
  unfold Py.all_space. induction s as [|c s IH]; simpl; [by split; constructor|].
  destruct (Py.isspace c) eqn:Ec.
  - rewrite IH. split; [by constructor|by inversion 1].
  - split; [|inversion 1; congruence].
    destruct s as [|c' s']; [done|].
    destruct (Py.isspace c'); [done|].
    by destruct (Py.split (String c' s')).
Qed.

(** The tokens hold no whitespace. *)
Lemma split_tokens_no_space s :
  Forall (λ w, Forall (λ c, Py.isspace c = false) (list_ascii_of_string w))
         (Py.split s).
Proof.
  induction s as [|c s IH]; simpl; [constructor|].
  destruct (Py.isspace c) eqn:Ec; [done|].
  destruct s as [|c' s']; [by repeat constructor|].
  destruct (Py.isspace c') eqn:Ec'; [constructor; [by repeat constructor|done]|].
  destruct (Py.split (String c' s')) as [|w ws]; [by repeat constructor|].
  inversion IH; subst. constructor; [by constructor|done].
Qed.

Lemma filter_truthy_tokens s :
  filter (λ i, Py.truthy (VStr i)) (Py.split s) = Py.split s.
Proof.
  pose proof (split_tokens_nonempty s) as Hne.
  induction Hne as [|w ws Hw _ IH]; [done|].
  rewrite filter_cons, IH. simpl.
  by destruct (String.eqb_spec w "").
Qed.

Section Facade.
Context {OP : OsPath} {RT : PyRuntime} {K : KasLib}.

Lemma get_bitbake_targets_eq (self : Config) (env : environ) :
  get_bitbake_targets self env =
    if Py.truthy (_override_target self) then _override_target self
    else match Py.split (default "" (env !! "KAS_TARGET")) with
         | [] => config_targets self
         | tokens => VList (VStr <$> tokens)
         end.
Proof.
  unfold get_bitbake_targets, config_targets.
  destruct (Py.truthy (_override_target self)); [done|].
  rewrite filter_truthy_tokens.
  by destruct (Py.split (default "" (env !! "KAS_TARGET"))).
Qed.

(** C3, amended: an override target that is truthy (neither [None] nor
    empty) is returned; otherwise the whitespace-separated tokens of
    [KAS_TARGET], when there is at least one; otherwise the [target] of the
    configuration, a string as a one-element list and a sequence as it is;
    otherwise the one-element list of "core-image-minimal". *)
Theorem get_bitbake_targets_precedence (self : Config) (env : environ) :
  let tokens := Py.split (default "" (env !! "KAS_TARGET")) in
  let target := Py.dict_lookup "target" (_config self) in
  (Py.truthy (_override_target self) = true →
     get_bitbake_targets self env = _override_target self)
  ∧ (Py.truthy (_override_target self) = false →
     (tokens ≠ [] → get_bitbake_targets self env = VList (VStr <$> tokens))
     ∧ (tokens = [] →
        (∀ s, target = Some (VStr s) →
              get_bitbake_targets self env = VList [VStr s])
        ∧ (∀ l, target = Some (VList l) →
                get_bitbake_targets self env = VList l)
        ∧ (target = None →
           get_bitbake_targets self env = VList [VStr "core-image-minimal"]))).
Proof.
  intros tokens target. rewrite get_bitbake_targets_eq. fold tokens.
  split; [by intros ->|]. intros ->. split.
  - by destruct tokens.
  - intros ->. unfold config_targets, Py.dict_get. fold target.
    split_and!; [intros s ->|intros l ->|intros ->]; done.
Qed.

(** C10: with no override target, a [KAS_TARGET] that is set but empty or
    all whitespace is ignored: the result is the one obtained with the
    variable unset, namely the [target] of the configuration or the default,
    and it is the empty list only if the configuration says so. *)
Theorem blank_KAS_TARGET_ignored (self : Config) (env : environ) (s : string) :
  _override_target self = VNone →
  env !! "KAS_TARGET" = Some s →
  Py.all_space s →
  get_bitbake_targets self env = get_bitbake_targets self (delete "KAS_TARGET" env)
  ∧ get_bitbake_targets self env = config_targets self
  ∧ (Py.dict_lookup "target" (_config self) ≠ Some (VList []) →
     get_bitbake_targets self env ≠ VList []).
Proof.
  intros Hov Henv Hblank. rewrite !get_bitbake_targets_eq, Hov. simpl.
  rewrite Henv, lookup_delete_eq. simpl.
  apply split_nil_iff in Hblank as ->. split_and!; [done..|].
  unfold config_targets, Py.dict_get.
  destruct (Py.dict_lookup "target" (_config self)) as [[]|]; simpl; congruence.
Qed.

(** C4: [get_machine] returns the value of [KAS_MACHINE] when the variable is
    set; when it is unset, the [machine] of the configuration when there is
    one and "qemux86-64" otherwise.  With machine qemux86-64 configured and
    [KAS_MACHINE=raspberrypi4] it returns "raspberrypi4". *)
Theorem get_machine_precedence (self : Config) (env : environ) :
  (∀ v, env !! "KAS_MACHINE" = Some v → get_machine self env = VStr v)
  ∧ (env !! "KAS_MACHINE" = None →
     (∀ m, Py.dict_lookup "machine" (_config self) = Some m →
           get_machine self env = m)
     ∧ (Py.dict_lookup "machine" (_config self) = None →
        get_machine self env = VStr "qemux86-64"))
  ∧ (Py.dict_lookup "machine" (_config self) = Some (VStr "qemux86-64") →
     env !! "KAS_MACHINE" = Some "raspberrypi4" →
     get_machine self env = VStr "raspberrypi4").
Proof.
  unfold get_machine, environ_get, Py.dict_get. split_and!.
  - by intros v ->.
  - intros ->. split; [by intros m ->|by intros ->].
  - by intros _ ->.
Qed.

End Facade.

Lemma get_bitbake_targets_precedence_witness :
  get_bitbake_targets (Sample.config_of (VList [VStr "world"]) []) ∅
    = VList [VStr "world"]
  ∧ get_bitbake_targets (Sample.config_of VNone [])
      {[ "KAS_TARGET" := "zephyr  core-image-sato" ]}
    = VList [VStr "zephyr"; VStr "core-image-sato"]
  ∧ get_bitbake_targets (Sample.config_of VNone [("target", VStr "my-image")]) ∅
    = VList [VStr "my-image"]
  ∧ get_bitbake_targets
      (Sample.config_of VNone [("target", VList [VStr "a"; VStr "b"])]) ∅
    = VList [VStr "a"; VStr "b"]
  ∧ get_bitbake_targets (Sample.config_of VNone []) ∅
    = VList [VStr "core-image-minimal"].
Proof.
  split_and!.
  - exact (proj1 (get_bitbake_targets_precedence (K := Sample.kas)
                    (Sample.config_of (VList [VStr "world"]) []) ∅) eq_refl).
  - refine (proj1 (proj2 (get_bitbake_targets_precedence (K := Sample.kas)
                    (Sample.config_of VNone [])
                    {[ "KAS_TARGET" := "zephyr  core-image-sato" ]}) eq_refl) _).
    vm_compute. discriminate.
  - exact (proj1 (proj2 (proj2 (get_bitbake_targets_precedence (K := Sample.kas)
                    (Sample.config_of VNone [("target", VStr "my-image")]) ∅)
                    eq_refl) eq_refl) _ eq_refl).
  - exact (proj1 (proj2 (proj2 (proj2 (get_bitbake_targets_precedence
                    (K := Sample.kas)
                    (Sample.config_of VNone [("target", VList [VStr "a"; VStr "b"])])
                    ∅) eq_refl) eq_refl)) _ eq_refl).
  - exact (proj2 (proj2 (proj2 (proj2 (get_bitbake_targets_precedence
                    (K := Sample.kas) (Sample.config_of VNone []) ∅)
                    eq_refl) eq_refl)) eq_refl).
Defined.

(** C3 as stated fails: an empty list supplied as the override target is not
    returned; the default target is. *)
Lemma empty_override_not_returned :
  _override_target (Sample.config_of (VList []) []) ≠ VNone
  ∧ get_bitbake_targets (Sample.config_of (VList []) []) ∅
    = VList [VStr "core-image-minimal"]
  ∧ get_bitbake_targets (Sample.config_of (VList []) []) ∅
    ≠ _override_target (Sample.config_of (VList []) []).
Proof. split_and!; [discriminate|reflexivity|discriminate]. Qed.

Lemma blank_KAS_TARGET_ignored_witness :
  get_bitbake_targets (Sample.config_of VNone [("target", VStr "my-image")])
      {[ "KAS_TARGET" := "  " ]}
    = get_bitbake_targets (Sample.config_of VNone [("target", VStr "my-image")])
        (delete "KAS_TARGET" {[ "KAS_TARGET" := "  " ]})
  ∧ get_bitbake_targets (Sample.config_of VNone [("target", VStr "my-image")])
      {[ "KAS_TARGET" := "  " ]}
    = VList [VStr "my-image"].
Proof.
  destruct (blank_KAS_TARGET_ignored (K := Sample.kas)
              (Sample.config_of VNone [("target", VStr "my-image")])
              {[ "KAS_TARGET" := "  " ]} "  ") as (Hunset & Hconfig & _);
    [reflexivity|reflexivity|by repeat constructor|].
  split; [exact Hunset|exact Hconfig].
Defined.

Lemma get_machine_precedence_witness :
  get_machine (Sample.config_of VNone [("machine", VStr "qemux86-64")])
      {[ "KAS_MACHINE" := "raspberrypi4" ]}
    = VStr "raspberrypi4"
  ∧ get_machine (Sample.config_of VNone [("machine", VStr "qemuarm")]) ∅
    = VStr "qemuarm"
  ∧ get_machine (Sample.config_of VNone []) ∅ = VStr "qemux86-64".
Proof.
  split_and!.
  - exact (proj1 (get_machine_precedence (K := Sample.kas)
                    (Sample.config_of VNone [("machine", VStr "qemux86-64")])
                    {[ "KAS_MACHINE" := "raspberrypi4" ]}) _ eq_refl).
  - exact (proj1 (proj1 (proj2 (get_machine_precedence (K := Sample.kas)
                    (Sample.config_of VNone [("machine", VStr "qemuarm")]) ∅))
                    eq_refl) _ eq_refl).
  - exact (proj2 (proj1 (proj2 (get_machine_precedence (K := Sample.kas)
                    (Sample.config_of VNone []) ∅)) eq_refl) eq_refl).
Defined.

(** ** Multiconfig *)

Lemma string_app_nil_r (s : string) : s +:+ "" = s.
Proof.
  induction s as [|a s IH]; [done|].
  change (String a (s +:+ "") = String a s). by rewrite IH.
Qed.

Lemma string_app_assoc (s1 s2 s3 : string) : (s1 +:+ s2) +:+ s3 = s1 +:+ s2 +:+ s3.
Proof.
  induction s1 as [|a s1 IH]; [done|].
  change (String a ((s1 +:+ s2) +:+ s3) = String a (s1 +:+ s2 +:+ s3)).
  by rewrite IH.
Qed.

(** [" ".join] of a non-empty list: the first string, then every further
    string after one space. *)
Lemma join_space_cons (f : string) (rest : list string) :
  Py.join " " (f :: rest) = f +:+ foldr (λ x acc, " " +:+ x +:+ acc) "" rest.
Proof.
  unfold Py.join. revert f. induction rest as [|g rest IH]; intros f.
  - simpl. by rewrite string_app_nil_r.
  - change (String.concat " " (f :: g :: rest))
      with (f +:+ " " +:+ String.concat " " (g :: rest)).
    by rewrite IH.
Qed.

Lemma NoDup_pair_iff {A} (l : list A) (a b : A) :
  a ≠ b → NoDup l → (∀ x, x ∈ l ↔ x ∈ [a; b]) → l = [a; b] ∨ l = [b; a].
Proof.
  intros Hne Hnd Hel.
  assert (l ≡ₚ [a; b]) as Hperm.
  { apply NoDup_Permutation; [done| |done].
    apply NoDup_cons. split; [by intros ?%list_elem_of_singleton|].
    apply NoDup_singleton. }
  apply Permutation_length in Hperm.
  destruct l as [|x [|y [|z l]]]; try discriminate.
  assert (x ∈ [a; b]) as Hx by (apply Hel; left).
  assert (y ∈ [a; b]) as Hy by (apply Hel; right; left).
  apply NoDup_cons in Hnd as [Hxy _].
  rewrite list_elem_of_singleton in Hxy.
  rewrite !elem_of_cons, elem_of_nil in Hx, Hy.
  destruct Hx as [->|[->|[]]], Hy as [->|[->|[]]]; auto; congruence.
Qed.

Lemma prefix_app p t : String.prefix p t = true → ∃ rest, t = p +:+ rest.
Proof.
  revert t. induction p as [|c p IH]; intros t.
  - intros _. by exists t.
  - destruct t as [|c' t]; simpl; [done|].
    destruct (ascii_dec c c') as [->|]; [|done].
    intros [rest ->]%IH. by exists rest.
Qed.

(** A string with a separator in it splits into at least two fields. *)
Lemma split_on_two_fields sep a b :
  ∃ w x ws, Py.split_on sep (a +:+ String sep b) = w :: x :: ws.
Proof.
  induction a as [|c a (w & x & ws & IH)]; simpl.
  - rewrite Ascii.eqb_refl. pose proof (split_on_nonempty sep b).
    destruct (Py.split_on sep b) as [|x ws]; [done|]. by exists "", x, ws.
  - rewrite IH. destruct (Ascii.eqb c sep); eauto.
Qed.

Lemma multiconfig_prefix_second_field target :
  Py.startswith target "multiconfig:" || Py.startswith target "mc:" = true →
  ∃ w x ws, Py.split_on ":" target = w :: x :: ws.
Proof.
  unfold Py.startswith.
  intros [[rest ->]%prefix_app|[rest ->]%prefix_app]%orb_true_iff.
  - apply (split_on_two_fields ":" "multiconfig" rest).
  - apply (split_on_two_fields ":" "mc" rest).
Qed.

(** The loop adds the field of every selected target, and never fails on a
    list of strings. *)
Lemma scan_multiconfig_strings (targets added : list string) :
  scan_multiconfig (VStr <$> targets) added
  = Ok (reverse (omap multiconfig_field targets) ++ added).
Proof.
  revert added. induction targets as [|t ts IH]; intros added; [done|].
  simpl. unfold multiconfig_field.
  destruct (Py.startswith t "multiconfig:" || Py.startswith t "mc:") eqn:Et.
  - destruct (multiconfig_prefix_second_field t Et) as (w & x & ws & ->).
    simpl. rewrite IH, reverse_cons, <- app_assoc. done.
  - apply IH.
Qed.

Lemma elem_of_multiconfig_fields (targets : list string) x :
  x ∈ omap multiconfig_field targets
  ↔ ∃ t, t ∈ targets
         ∧ (Py.startswith t "multiconfig:" = true ∨ Py.startswith t "mc:" = true)
         ∧ Py.split_on ":" t !! 1%nat = Some x.
Proof.
  rewrite list_elem_of_omap. unfold multiconfig_field.
  split; intros (t & Ht & Hx); exists t; (split; [done|]).
  - destruct (_ || _) eqn:Et; [|done]. by apply orb_true_iff in Et.
  - destruct Hx as [Hpre Hx]. apply orb_true_iff in Hpre. by rewrite Hpre.
Qed.

Lemma NoDup_singleton_iff {A} (l : list A) (a : A) :
  NoDup l → (∀ x, x ∈ l ↔ x ∈ [a]) → l = [a].
Proof.
  intros Hnd Hel. destruct l as [|y l].
  - assert (a ∈ @nil A) as Ha by (apply Hel; left). inversion Ha.
  - assert (y = a) as -> by (apply list_elem_of_singleton, Hel; left).
    inversion Hnd as [|? ? Hnotin _]; subst.
    destruct l as [|z l]; [done|].
    assert (z = a) as -> by (apply list_elem_of_singleton, Hel; right; left).
    destruct Hnotin. left.
Qed.

Section Multiconfig.
Context {OP : OsPath} {RT : PyRuntime} {K : KasLib}.

(** C7: over a resolved target list of strings, [get_multiconfig] returns a
    duplicate-free enumeration of exactly the second colon-delimited fields of
    the targets that start with [multiconfig:] or [mc:], the first field
    followed by each further field after a single space (the empty string
    when there is none).  With no override, [KAS_TARGET] unset and the
    configured targets core-image-minimal and mc:qemu:core-image-sato, the
    result is "qemu"; with the configured targets mc:a:img, img,
    multiconfig:b:img and mc:a:other it is "a b" or "b a". *)
Theorem get_multiconfig_fields (self : Config) (env : environ) :
  (∀ targets : list string,
     Py.iter (get_bitbake_targets self env) = Ok (VStr <$> targets) →
     ∃ fields,
       get_multiconfig self env
       = Ok (match fields with
             | [] => ""
             | f :: rest => f +:+ foldr (λ x acc, " " +:+ x +:+ acc) "" rest
             end)
       ∧ get_multiconfig self env = Ok (Py.join " " fields)
       ∧ NoDup fields
       ∧ ∀ x, x ∈ fields ↔
              ∃ t, t ∈ targets
                   ∧ (Py.startswith t "multiconfig:" = true
                      ∨ Py.startswith t "mc:" = true)
                   ∧ Py.split_on ":" t !! 1%nat = Some x)
  ∧ (_override_target self = VNone →
     env !! "KAS_TARGET" = None →
     Py.dict_lookup "target" (_config self)
       = Some (VList [VStr "core-image-minimal"; VStr "mc:qemu:core-image-sato"]) →
     get_multiconfig self env = Ok "qemu")
  ∧ (_override_target self = VNone →
     env !! "KAS_TARGET" = None →
     Py.dict_lookup "target" (_config self)
       = Some (VList [VStr "mc:a:img"; VStr "img"; VStr "multiconfig:b:img";
                      VStr "mc:a:other"]) →
     get_multiconfig self env = Ok "a b" ∨ get_multiconfig self env = Ok "b a").
Proof.
  split_and!.
  - intros targets Hiter. unfold get_multiconfig. rewrite Hiter. unfold_result.
    rewrite scan_multiconfig_strings, app_nil_r, reverse_involutive.
    eexists. split_and!; [|done|apply set_iter_NoDup|].
    + destruct (set_iter (omap multiconfig_field targets)) as [|f rest]; [done|].
      by rewrite join_space_cons.
    + intros x. by rewrite set_iter_elem_of, elem_of_multiconfig_fields.
  - intros Hov Henv Htarget. unfold get_multiconfig.
    rewrite get_bitbake_targets_eq, Hov, Henv. simpl.
    unfold config_targets, Py.dict_get. rewrite Htarget. simpl.
    rewrite (NoDup_singleton_iff (set_iter ["qemu"]) "qemu"); [done|..].
    + apply set_iter_NoDup.
    + apply set_iter_elem_of.
  - intros Hov Henv Htarget. unfold get_multiconfig.
    rewrite get_bitbake_targets_eq, Hov, Henv. simpl.
    unfold config_targets, Py.dict_get. rewrite Htarget. simpl.
    change (reverse ["a"; "b"; "a"]) with ["a"; "b"; "a"].
    destruct (NoDup_pair_iff (set_iter ["a"; "b"; "a"]) "a" "b") as [-> | ->];
      [done|apply set_iter_NoDup| |by left|by right].
    intros x. rewrite set_iter_elem_of, !elem_of_cons, !elem_of_nil. tauto.
Qed.

End Multiconfig.

Lemma get_multiconfig_fields_witness :
  (∃ fields,
     get_multiconfig (RT := Sample.runtime)
       (Sample.config_of (VList [VStr "mc:a:img"; VStr "img"; VStr "multiconfig:b:img";
                                 VStr "mc:a:other"]) []) ∅
     = Ok (match fields with
           | [] => ""
           | f :: rest => f +:+ foldr (λ x acc, " " +:+ x +:+ acc) "" rest
           end)
     ∧ get_multiconfig (RT := Sample.runtime)
         (Sample.config_of (VList [VStr "mc:a:img"; VStr "img"; VStr "multiconfig:b:img";
                                   VStr "mc:a:other"]) []) ∅
       = Ok (Py.join " " fields)
     ∧ NoDup fields
     ∧ ∀ x, x ∈ fields ↔
            ∃ t, t ∈ ["mc:a:img"; "img"; "multiconfig:b:img"; "mc:a:other"]
                 ∧ (Py.startswith t "multiconfig:" = true
                    ∨ Py.startswith t "mc:" = true)
                 ∧ Py.split_on ":" t !! 1%nat = Some x)
  ∧ get_multiconfig (RT := Sample.runtime)
      (Sample.config_of VNone
         [("target", VList [VStr "core-image-minimal"; VStr "mc:qemu:core-image-sato"])])
      ∅
    = Ok "qemu"
  ∧ (get_multiconfig (RT := Sample.runtime)
       (Sample.config_of VNone
          [("target", VList [VStr "mc:a:img"; VStr "img"; VStr "multiconfig:b:img";
                             VStr "mc:a:other"])]) ∅
     = Ok "a b"
     ∨ get_multiconfig (RT := Sample.runtime)
         (Sample.config_of VNone
            [("target", VList [VStr "mc:a:img"; VStr "img"; VStr "multiconfig:b:img";
                               VStr "mc:a:other"])]) ∅
       = Ok "b a")
  ∧ get_multiconfig (RT := Sample.runtime)
      (Sample.config_of VNone
         [("target", VList [VStr "mc:a:img"; VStr "img"; VStr "multiconfig:b:img";
                            VStr "mc:a:other"])]) ∅
    = Ok "b a".
Proof.
  split_and!.
  - exact (proj1 (get_multiconfig_fields (RT := Sample.runtime) (K := Sample.kas)
                    (Sample.config_of
                       (VList [VStr "mc:a:img"; VStr "img"; VStr "multiconfig:b:img";
                               VStr "mc:a:other"]) []) ∅)
                 ["mc:a:img"; "img"; "multiconfig:b:img"; "mc:a:other"] eq_refl).
  - exact (proj1 (proj2 (get_multiconfig_fields (RT := Sample.runtime)
                    (K := Sample.kas)
                    (Sample.config_of VNone
                       [("target", VList [VStr "core-image-minimal";
                                          VStr "mc:qemu:core-image-sato"])]) ∅))
                 eq_refl eq_refl eq_refl).
  - exact (proj2 (proj2 (get_multiconfig_fields (RT := Sample.runtime)
                    (K := Sample.kas)
                    (Sample.config_of VNone
                       [("target", VList [VStr "mc:a:img"; VStr "img";
                                          VStr "multiconfig:b:img";
                                          VStr "mc:a:other"])]) ∅))
                 eq_refl eq_refl eq_refl).
  - vm_compute. reflexivity.
Defined.

Example get_multiconfig_ex :
  get_multiconfig (RT := Sample.runtime)
    (Sample.config_of (VList [VStr "mc:a:img"; VStr "img"; VStr "multiconfig:b:img";
                              VStr "mc:a:other"]) []) ∅
  = Ok "b a".
Proof. vm_compute. reflexivity. Qed.

(** ** Configuration headers *)

Lemma concat_empty_cons (x : string) (l : list string) :
  String.concat "" (x :: l) = x +:+ String.concat "" l.
Proof. destruct l; simpl; [by rewrite string_app_nil_r|done]. Qed.

(** The loop [header += ...] builds the concatenation of the entries. *)
Lemma fold_left_append {A} (f : A → string) (l : list A) (acc : string) :
  fold_left (λ header x, header +:+ f x) l acc
  = acc +:+ String.concat "" (f <$> l).
Proof.
  revert acc. induction l as [|x l IH]; intros acc.
  - simpl. by rewrite string_app_nil_r.
  - rewrite fmap_cons, concat_empty_cons. simpl.
    by rewrite IH, string_app_assoc.
Qed.

#[global] Instance item_le_trans : Transitive item_le.
Proof. intros x y z. unfold item_le. apply transitivity. Qed.

#[global] Instance item_le_total : Total item_le.
Proof. intros x y. unfold item_le. apply total, _. Qed.

(** In a dictionary the key determines the entry. *)
Lemma dict_wf_entry_unique (d : dict) k v1 v2 :
  dict_wf d → (k, v1) ∈ d → (k, v2) ∈ d → v1 = v2.
Proof.
  unfold dict_wf. induction d as [|[k' v'] d IH]; [by inversion 2|].
  rewrite fmap_cons, NoDup_cons, !elem_of_cons. simpl.
  intros [Hnotin Hnd] [?|H1] [?|H2]; simplify_eq; [done|..|by apply IH].
  - destruct Hnotin. apply list_elem_of_fmap. by exists (k', v2).
  - destruct Hnotin. apply list_elem_of_fmap. by exists (k', v1).
Qed.

Lemma sorted_items_Permutation (d : dict) : sorted_items d ≡ₚ d.
Proof. apply merge_sort_Permutation. Qed.

Lemma sorted_items_sorted (d : dict) : StronglySorted item_le (sorted_items d).
Proof. apply StronglySorted_merge_sort; apply _. Qed.

(** The sorted items do not depend on the insertion order. *)
Lemma sorted_items_order_irrelevant (d d' : dict) :
  dict_wf d → d' ≡ₚ d → sorted_items d' = sorted_items d.
Proof.
  intros Hwf Hperm.
  apply (StronglySorted_unique_strong item_le); try apply sorted_items_sorted.
  - intros [k1 v1] [k2 v2] H1 H2 Hle1 Hle2. unfold item_le in *. simpl in *.
    assert (k1 = k2) as -> by (by apply (anti_symm String.le)).
    f_equal. apply (dict_wf_entry_unique d k2); [done|..].
    + by rewrite <- Hperm, <- (sorted_items_Permutation d').
    + by rewrite <- (sorted_items_Permutation d).
  - by rewrite !sorted_items_Permutation.
Qed.

Section Headers.
Context {OP : OsPath} {RT : PyRuntime} {K : KasLib}.

(** C8: both header getters render the entries of their header mapping as
    "# key", newline, value, newline, concatenated in ascending order of the
    keys; the result is the same for every insertion order of the mapping. *)
Theorem conf_header_sorted (self : Config) (name : string) (d : dict) :
  Py.dict_get (_config self) name (VDict []) = VDict d →
  dict_wf d →
  (∃ entries,
     _get_conf_header self name
       = Ok (String.concat "" ((λ kv, "# " +:+ kv.1 +:+ Py.nl +:+ py_str kv.2 +:+ Py.nl)
                               <$> entries))
     ∧ entries ≡ₚ d
     ∧ StronglySorted String.le entries.*1)
  ∧ (∀ (self' : Config) (d' : dict),
       Py.dict_get (_config self') name (VDict []) = VDict d' →
       d' ≡ₚ d →
       _get_conf_header self' name = _get_conf_header self name)
  ∧ get_local_conf_header self = _get_conf_header self "local_conf_header"
  ∧ get_bblayers_conf_header self = _get_conf_header self "bblayers_conf_header".
Proof.
  intros Hd Hwf. split_and!; [| |done..].
  - exists (sorted_items d). unfold _get_conf_header. rewrite Hd. unfold_result.
    simpl. rewrite fold_left_append. split_and!; [done| |].
    + apply sorted_items_Permutation.
    + apply StronglySorted_fmap with (R1 := item_le); [|apply sorted_items_sorted].
      by intros [] [].
  - intros self' d' Hd' Hperm. unfold _get_conf_header. rewrite Hd, Hd'.
    unfold_result. simpl. by rewrite (sorted_items_order_irrelevant d d').
Qed.

End Headers.

Lemma conf_header_sorted_witness :
  get_local_conf_header (RT := Sample.runtime)
    (Sample.config_of VNone
       [("local_conf_header",
         VDict [("zlib", VStr "A = 1"); ("base", VStr "B = 2"); ("n", VInt 3)])])
  = Ok ("# base" +:+ Py.nl +:+ "B = 2" +:+ Py.nl
        +:+ "# n" +:+ Py.nl +:+ "3" +:+ Py.nl
        +:+ "# zlib" +:+ Py.nl +:+ "A = 1" +:+ Py.nl)
  ∧ get_local_conf_header (RT := Sample.runtime)
      (Sample.config_of VNone
         [("local_conf_header",
           VDict [("n", VInt 3); ("zlib", VStr "A = 1"); ("base", VStr "B = 2")])])
    = get_local_conf_header (RT := Sample.runtime)
        (Sample.config_of VNone
           [("local_conf_header",
             VDict [("zlib", VStr "A = 1"); ("base", VStr "B = 2"); ("n", VInt 3)])]).
Proof.
  pose proof (conf_header_sorted (RT := Sample.runtime) (K := Sample.kas)
    (Sample.config_of VNone
       [("local_conf_header",
         VDict [("zlib", VStr "A = 1"); ("base", VStr "B = 2"); ("n", VInt 3)])])
    "local_conf_header"
    [("zlib", VStr "A = 1"); ("base", VStr "B = 2"); ("n", VInt 3)]
    eq_refl ltac:(compute_done))
    as (_ & Hindep & _ & _).
  split.
  - vm_compute. reflexivity.
  - refine (Hindep
      (Sample.config_of VNone
         [("local_conf_header",
           VDict [("n", VInt 3); ("zlib", VStr "A = 1"); ("base", VStr "B = 2")])])
      [("n", VInt 3); ("zlib", VStr "A = 1"); ("base", VStr "B = 2")] eq_refl _).
    exact (Permutation_cons_append
             [("zlib", VStr "A = 1"); ("base", VStr "B = 2")] ("n", VInt 3)).
Defined.

(** ** Dictionaries *)

Lemma dict_lookup_None (d : dict) k : k ∉ d.*1 → Py.dict_lookup k d = None.
Proof.
  induction d as [|[k' v'] d IH]; [done|].
  rewrite fmap_cons, not_elem_of_cons. simpl. intros [Hne Hnotin].
  destruct (String.eqb_spec k k'); [done|]. by apply IH.
Qed.

Lemma dict_lookup_elem_of (d : dict) k v :
  dict_wf d → (k, v) ∈ d → Py.dict_lookup k d = Some v.
Proof.
  unfold dict_wf. induction d as [|[k' v'] d IH]; [by inversion 2|].
  rewrite fmap_cons, NoDup_cons, elem_of_cons. simpl.
  intros [Hnotin Hnd] [?|Hin]; simplify_eq.
  - by rewrite String.eqb_refl.
  - destruct (String.eqb_spec k k') as [->|]; [|by apply IH].
    destruct Hnotin. apply list_elem_of_fmap. by exists (k', v).
Qed.

Lemma dict_lookup_setitem (d : dict) k k' v :
  Py.dict_lookup k (Py.setitem k' v d)
  = if String.eqb k k' then Some v else Py.dict_lookup k d.
Proof.
  induction d as [|[k0 v0] d IH]; simpl.
  - by destruct (String.eqb k k').
  - destruct (String.eqb_spec k' k0) as [->|Hne]; simpl.
    + by destruct (String.eqb k k0).
    + rewrite IH. destruct (String.eqb_spec k k0) as [->|]; [|done].
      destruct (String.eqb_spec k0 k'); congruence.
Qed.

(** A new key goes to the end. *)
Lemma setitem_fresh (d : dict) k v : k ∉ d.*1 → Py.setitem k v d = d ++ [(k, v)].
Proof.
  induction d as [|[k' v'] d IH]; [done|].
  rewrite fmap_cons, not_elem_of_cons. simpl. intros [Hne Hnotin].
  destruct (String.eqb_spec k k'); [done|]. by rewrite IH.
Qed.

Lemma dict_lookup_fmap_values (g : string → value → value) (d : dict) k :
  Py.dict_lookup k ((λ kv, (kv.1, g kv.1 kv.2)) <$> d) = g k <$> Py.dict_lookup k d.
Proof.
  induction d as [|[k' v'] d IH]; [done|]. simpl.
  destruct (String.eqb_spec k k') as [->|]; [done|]. apply IH.
Qed.

(** ** The environment *)

Section Environment.
Context {OP : OsPath} {RT : PyRuntime} {K : KasLib}.

Lemma collect_environment_declared (d : dict) (env : environ) (rest acc : dict) :
  (∀ kv, kv ∈ rest → Py.dict_lookup kv.1 d = Some kv.2) →
  NoDup (acc.*1 ++ rest.*1) →
  collect_environment (VDict d) env (VStr <$> rest.*1) acc
  = Ok (acc ++ ((λ kv, (kv.1, environ_get env kv.1 kv.2)) <$> rest)).
Proof.
  revert acc. induction rest as [|[k v] rest IH]; intros acc Hd Hnd.
  - simpl. by rewrite app_nil_r.
  - pose proof (Hd (k, v) ltac:(left)) as Hk. simpl in *.
    rewrite Hk. unfold_result. rewrite setitem_fresh.
    + rewrite IH.
      * by rewrite <- app_assoc.
      * intros kv Hkv. apply Hd. by right.
      * rewrite fmap_app. simpl. rewrite <- app_assoc. exact Hnd.
    + apply NoDup_app in Hnd as (_ & Hdisj & _). intros Hin.
      apply (Hdisj k Hin). left.
Qed.

(** C9: [get_environment] returns a mapping over exactly the variables that
    the [env] table of the configuration declares, in their order; a
    variable that is set in the process environment has its value there, any
    other the default that the configuration declares. *)
Theorem get_environment_overrides (self : Config) (env : environ) (d : dict) :
  Py.dict_get (_config self) "env" (VDict []) = VDict d →
  dict_wf d →
  ∃ result,
    get_environment self env = Ok result
    ∧ result.*1 = d.*1
    ∧ ∀ var,
        Py.dict_lookup var result
        = (λ dflt, match env !! var with Some s => VStr s | None => dflt end)
            <$> Py.dict_lookup var d.
Proof.
  intros Hd Hwf. unfold get_environment. rewrite Hd. simpl. unfold_result.
  rewrite (collect_environment_declared d env d []).
  - eexists. split; [done|]. simpl. split.
    + rewrite <- list_fmap_compose. by apply list_fmap_ext.
    + intros var. apply (dict_lookup_fmap_values (environ_get env)).
  - intros [k v] Hkv. by apply dict_lookup_elem_of.
  - done.
Qed.

End Environment.

Lemma get_environment_overrides_witness :
  ∃ result,
    get_environment
      (Sample.config_of VNone
         [("env", VDict [("SSTATE_DIR", VStr "/cache"); ("DL_DIR", VStr "/dl")])])
      {[ "DL_DIR" := "/srv/downloads"; "HOME" := "/root" ]}
    = Ok result
    ∧ result.*1 = ["SSTATE_DIR"; "DL_DIR"]
    ∧ ∀ var,
        Py.dict_lookup var result
        = (λ dflt, match ({[ "DL_DIR" := "/srv/downloads"; "HOME" := "/root" ]}
                            : environ) !! var with
                   | Some s => VStr s
                   | None => dflt
                   end)
            <$> Py.dict_lookup var
                  [("SSTATE_DIR", VStr "/cache"); ("DL_DIR", VStr "/dl")].
Proof.
  exact (get_environment_overrides (K := Sample.kas)
           (Sample.config_of VNone
              [("env", VDict [("SSTATE_DIR", VStr "/cache"); ("DL_DIR", VStr "/dl")])])
           {[ "DL_DIR" := "/srv/downloads"; "HOME" := "/root" ]}
           [("SSTATE_DIR", VStr "/cache"); ("DL_DIR", VStr "/dl")]
           eq_refl ltac:(compute_done)).
Defined.

Example get_environment_ex :
  get_environment
    (Sample.config_of VNone
       [("env", VDict [("SSTATE_DIR", VStr "/cache"); ("DL_DIR", VStr "/dl")])])
    {[ "DL_DIR" := "/srv/downloads"; "HOME" := "/root" ]}
  = Ok [("SSTATE_DIR", VStr "/cache"); ("DL_DIR", VStr "/srv/downloads")].
Proof. vm_compute. reflexivity. Qed.

(** ** Repositories *)

Section Repos.
Context {OP : OsPath} {RT : PyRuntime} {K : KasLib}.

Lemma repo_table_set_fresh (name : value) (r : Repo) (t : list (value * Repo)) :
  Forall (λ e, Py.key_eqb name e.1 = false) t →
  repo_table_set name r t = t ++ [(name, r)].
Proof.
  induction 1 as [|[n r'] t Hn _ IH]; [done|]. simpl in *.
  by rewrite Hn, IH.
Qed.

(** The cached table plays no part in building a repository. *)
Lemma get_repo_ignores_cache (self : Config) (stale : list (value * Repo)) name :
  get_repo (set_repo_dict self stale) name = get_repo self name.
Proof. reflexivity. Qed.

Lemma collect_repos_ignores_cache (self : Config) (stale : list (value * Repo)) names acc :
  collect_repos (set_repo_dict self stale) names acc = collect_repos self names acc.
Proof.
  revert acc. induction names as [|name names IH]; intros acc; [done|].
  simpl. rewrite get_repo_ignores_cache.
  destruct (get_repo self name); [|done]. unfold_result.
  destruct (Py.hashable name); [apply IH|done].
Qed.

(** Over the keys of a dictionary the comprehension builds one repository
    per key, in order, or stops at the first key whose repository cannot be
    built. *)
Lemma collect_repos_keys (self : Config) (keys : list string) (acc : list (value * Repo)) :
  NoDup keys →
  Forall (λ e, ∀ k, k ∈ keys → Py.key_eqb (VStr k) e.1 = false) acc →
  (∃ handles,
     Forall2 (λ k h, get_repo self (VStr k) = Ok h) keys handles
     ∧ collect_repos self (VStr <$> keys) acc
       = Ok (acc ++ zip (VStr <$> keys) handles))
  ∨ (∃ k e, k ∈ keys ∧ get_repo self (VStr k) = Raise e
            ∧ collect_repos self (VStr <$> keys) acc = Raise e).
Proof.
  intros Hnd. revert acc.
  induction Hnd as [|k keys Hnotin Hnd IH]; intros acc Hfresh.
  - left. exists []. split; [constructor|]. simpl. by rewrite app_nil_r.
  - rewrite fmap_cons.
    change (collect_repos self (VStr k :: (VStr <$> keys)) acc)
      with (r ← get_repo self (VStr k);
            collect_repos self (VStr <$> keys) (repo_table_set (VStr k) r acc)).
    destruct (get_repo self (VStr k)) as [r|e] eqn:Er; unfold_result.
    + rewrite repo_table_set_fresh.
      2:{ eapply Forall_impl; [exact Hfresh|]. intros e He. apply He. left. }
      destruct (IH (acc ++ [(VStr k, r)])) as [(hs & Hall & Heq)|(k' & e & Hk' & He & Heq)].
      * apply Forall_app. split.
        -- eapply Forall_impl; [exact Hfresh|]. intros e He k' Hk'.
           apply He. by right.
        -- constructor; [|constructor]. intros k' Hk'. simpl.
           destruct (String.eqb_spec k' k); congruence.
      * left. exists (r :: hs). split; [by constructor|].
        rewrite Heq. simpl. by rewrite <- app_assoc.
      * right. exists k', e. split_and!; [by right|done..].
    + right. exists k, e. split_and!; [left|done..].
Qed.

Lemma Forall2_Ok_unique {A B} (f : A → result B) (l : list A) (k k' : list B) :
  Forall2 (λ x y, f x = Ok y) l k → Forall2 (λ x y, f x = Ok y) l k' → k = k'.
Proof.
  intros Hk. revert k'. induction Hk as [|x y l k Hxy _ IH]; intros k' Hk'.
  - by inversion Hk'.
  - inversion Hk' as [|? y' ? k'' Hxy' Hk'']; subst. f_equal; [congruence|by apply IH].
Qed.

Lemma Forall2_Ok_exists {A B} (f : A → result B) (l : list A) :
  (∀ x, x ∈ l → ∃ y, f x = Ok y) → ∃ k, Forall2 (λ x y, f x = Ok y) l k.
Proof.
  induction l as [|x l IH]; intros Hall; [by exists []|].
  destruct (Hall x ltac:(left)) as [y Hy].
  destruct IH as [k Hk]; [intros x' Hx'; apply Hall; by right|].
  exists (y :: k). by constructor.
Qed.

(** C6: [get_repos] builds the handles anew from the configuration that the
    object holds when it is called: whatever table was cached before, the
    result is the same, and it is one handle per name of the [repos] table of
    the stored configuration, in order, each the [get_repo] of its name, with
    the cached table replaced by the table of these names and handles; the
    call succeeds exactly when every one of these can be built.  So it is
    after the stored configuration has been replaced. *)
Theorem get_repos_rederived (self : Config) (repos : dict) :
  Py.dict_get (_config self) "repos" (VDict []) = VDict repos →
  dict_wf repos →
  (∀ stale, get_repos (set_repo_dict self stale) = get_repos self)
  ∧ (∀ self' handles,
       get_repos self = Ok (self', handles)
       ↔ Forall2 (λ name h, get_repo self (VStr name) = Ok h) repos.*1 handles
         ∧ self' = set_repo_dict self (zip (VStr <$> repos.*1) handles))
  ∧ (∀ self' handles,
       get_repos self = Ok (self', handles) →
       length handles = length repos
       ∧ repo_dict self' = zip (VStr <$> repos.*1) handles
       ∧ _config self' = _config self)
  ∧ ((∀ name, name ∈ repos.*1 → ∃ h, get_repo self (VStr name) = Ok h) →
     ∃ self' handles, get_repos self = Ok (self', handles)).
Proof.
  intros Hrepos Hwf.
  assert (∀ stale, get_repos (set_repo_dict self stale) = get_repos self) as Hcache.
  { intros stale. unfold get_repos, _get_repo_dict.
    change (get_repos_config (set_repo_dict self stale)) with (get_repos_config self).
    unfold_result.
    destruct (Py.iter (get_repos_config self)) as [names|]; [|reflexivity].
    rewrite collect_repos_ignores_cache.
    destruct (collect_repos self names []); reflexivity. }
  assert (∀ self' handles,
            get_repos self = Ok (self', handles)
            ↔ Forall2 (λ name h, get_repo self (VStr name) = Ok h) repos.*1 handles
              ∧ self' = set_repo_dict self (zip (VStr <$> repos.*1) handles))
    as Hiff.
  { intros self' handles.
    unfold get_repos, _get_repo_dict, get_repos_config. rewrite Hrepos.
    cbn [Py.iter]. unfold_result.
    destruct (collect_repos_keys self repos.*1 [] Hwf ltac:(constructor))
      as [(hs & Hall & ->)|(k & e & Hk & He & ->)]; cbn [app].
    - assert ((zip (VStr <$> repos.*1) hs).*2 = hs) as Hsnd.
      { rewrite snd_zip; [done|]. rewrite length_fmap.
        apply Forall2_length in Hall. lia. }
      rewrite Hsnd. split.
      + by intros [= <- <-].
      + intros [Hall' ->]. by rewrite (Forall2_Ok_unique _ _ _ _ Hall' Hall).
    - split; [done|]. intros [Hall' _]. exfalso.
      apply list_elem_of_lookup in Hk as [i Hi].
      destruct (Forall2_lookup_l _ _ _ _ _ Hall' Hi) as (h & _ & Hh). congruence. }
  split_and!; [exact Hcache|exact Hiff|..].
  - intros self' handles [Hall ->]%Hiff. split_and!; [|done..].
    apply Forall2_length in Hall. by rewrite length_fmap in Hall.
  - intros Hall.
    assert (∃ handles,
              Forall2 (λ name h, get_repo self (VStr name) = Ok h) repos.*1 handles)
      as [handles Hhandles].
    { by apply (Forall2_Ok_exists (λ name, get_repo self (VStr name))). }
    exists (set_repo_dict self (zip (VStr <$> repos.*1) handles)), handles.
    by apply Hiff.
Qed.

End Repos.

Lemma get_repos_rederived_witness :
  (∀ stale,
     get_repos (set_repo_dict (Sample.config_of VNone Sample.merged) stale)
     = get_repos (Sample.config_of VNone Sample.merged))
  ∧ get_repos
      (set_config
         (set_repo_dict (Sample.config_of VNone [("repos", VDict [("old", VNone)])])
            [(VStr "old", (VStr "old", VDict [], VDict [], Some "/a", VDict []))])
         Sample.merged)
    = Ok (set_repo_dict (Sample.config_of VNone Sample.merged)
            [(VStr "foo",
              (VStr "foo", VDict [], VDict [("branch", VStr "main")], Some "/a",
               VDict [("branch", VStr "release")]));
             (VStr "meta-custom",
              (VStr "meta-custom",
               VDict [("url", VStr "https://example.org/meta-custom.git");
                      ("branch", VStr "next")],
               VDict [("branch", VStr "main")], Some "/a", VDict []))],
          [(VStr "foo", VDict [], VDict [("branch", VStr "main")], Some "/a",
            VDict [("branch", VStr "release")]);
           (VStr "meta-custom",
            VDict [("url", VStr "https://example.org/meta-custom.git");
                   ("branch", VStr "next")],
            VDict [("branch", VStr "main")], Some "/a", VDict [])]).
Proof.
  split.
  - exact (proj1 (get_repos_rederived (K := Sample.kas)
                    (Sample.config_of VNone Sample.merged)
                    [("foo", VNone);
                     ("meta-custom",
                      VDict [("url", VStr "https://example.org/meta-custom.git");
                             ("branch", VStr "next")])]
                    eq_refl ltac:(compute_done))).
  - apply (proj1 (proj2 (get_repos_rederived (K := Sample.kas)
              (set_config
                 (set_repo_dict
                    (Sample.config_of VNone [("repos", VDict [("old", VNone)])])
                    [(VStr "old", (VStr "old", VDict [], VDict [], Some "/a", VDict []))])
                 Sample.merged)
              [("foo", VNone);
               ("meta-custom",
                VDict [("url", VStr "https://example.org/meta-custom.git");
                       ("branch", VStr "next")])]
              eq_refl ltac:(compute_done)))).
    split; [|reflexivity].
    constructor; [reflexivity|]. constructor; [reflexivity|]. constructor.
Defined.

(** A configuration object built before any resolution caches no
    repository; once a resolution pass has stored a configuration,
    [get_repos] lists the repositories of that configuration. *)
Example get_repos_after_resolution :
  ∃ self0 self1 self2 handles,
    Config_init (OP := Sample.os_path) (K := Sample.kas) "/a/kas.yml" VNone VNone false
      = Ok self0
    ∧ repo_dict self0 = []
    ∧ find_missing_repos self0 (VDict []) = Ok (self1, ["meta-custom"])
    ∧ repo_dict self1 = []
    ∧ get_repos self1 = Ok (self2, handles)
    ∧ (repo_dict self2).*1 = [VStr "foo"; VStr "meta-custom"]
    ∧ length handles = 2%nat.
Proof. do 4 eexists. split_and!; reflexivity. Qed.

(** ** Layered repository fields *)

(** A field of a layered table comes from the layer when the layer has it,
    and from the base otherwise. *)
Lemma dict_lookup_apply_layer (base layer : dict) field :
  dict_wf layer →
  Py.dict_lookup field (apply_layer base layer)
  = match Py.dict_lookup field layer with
    | Some v => Some v
    | None => Py.dict_lookup field base
    end.
Proof.
  unfold dict_wf, apply_layer. revert base.
  induction layer as [|[k v] layer IH]; intros base Hwf; [done|].
  rewrite fmap_cons, NoDup_cons in Hwf. destruct Hwf as [Hnotin Hwf].
  simpl in *. rewrite IH by done. rewrite dict_lookup_setitem.
  destruct (String.eqb_spec field k) as [->|]; [|done].
  by rewrite dict_lookup_None.
Qed.

(** C5: for a name of the [repos] table of the stored configuration,
    [get_repo] hands to the factory, for every library, the name, the entry of
    the repository, the [repos] table of [defaults] and the entry of the name
    in the [repos] table of [overrides]; the handle that the factory of the
    data model builds from them has that name and, as field set, the defaults
    overlaid with the entry, overlaid with the overrides: each field has the
    value of the last layer that sets it.  A branch that the defaults set to
    main, the entry leaves out and the overrides set to release is release. *)
Theorem get_repo_layered {OP : OsPath} {RT : PyRuntime} (K : KasLib)
    (self : Config (K := K)) (name : string)
    (repos own defaults overrides : dict)
    (defaults_table overrides_table overrides_repos : dict) (entry : value) :
  Py.dict_get (_config self) "repos" (VDict []) = VDict repos →
  Py.dict_lookup name repos = Some entry →
  (if Py.truthy entry then entry else VDict []) = VDict own →
  Py.dict_get (_config self) "defaults" (VDict []) = VDict defaults_table →
  Py.dict_get defaults_table "repos" (VDict []) = VDict defaults →
  Py.dict_get (_config self) "overrides" (VDict []) = VDict overrides_table →
  Py.dict_get overrides_table "repos" (VDict []) = VDict overrides_repos →
  Py.dict_get overrides_repos name (VDict []) = VDict overrides →
  dict_wf own →
  dict_wf overrides →
  get_repo self (VStr name)
  = Repo_factory (VStr name) (VDict own) (VDict defaults)
      (get_top_repo_path (handler self)) (VDict overrides)
  ∧ ∀ self0 : Config (K := with_spec_repos K),
      _config self0 = _config self →
      ∃ h : RepoHandle,
        get_repo (K := with_spec_repos K) self0 (VStr name) = Ok h
        ∧ rh_name h = VStr name
        ∧ (∀ field,
             Py.dict_lookup field (rh_fields h)
             = layered overrides own defaults field)
        ∧ (Py.dict_lookup "branch" defaults = Some (VStr "main") →
           Py.dict_lookup "branch" own = None →
           Py.dict_lookup "branch" overrides = Some (VStr "release") →
           Py.dict_lookup "branch" (rh_fields h) = Some (VStr "release")).
Proof.
  intros Hrepos Hentry Hown Hdt Hdefaults Hot Hor Hoverrides Hwf_own Hwf_over.
  assert (∀ (K' : KasLib) (s : Config (K := K')),
            _config s = _config self →
            get_repo s (VStr name)
            = Repo_factory (VStr name) (VDict own) (VDict defaults)
                (get_top_repo_path (handler s)) (VDict overrides)) as Hcode.
  { intros K' s Hs.
    unfold get_repo, repo_defaults_of, overrides_of, get_repos_config.
    rewrite Hs, Hdt, Hot, Hrepos. cbn [Py.get]. rewrite Hdefaults, Hor.
    unfold_result. cbn [Py.get]. rewrite Hoverrides.
    cbn [Py.getitem]. by rewrite Hentry, Hown. }
  split; [by apply Hcode|].
  intros self0 Hself0. rewrite (Hcode _ self0 Hself0).
  eexists. split; [reflexivity|]. cbn [rh_name rh_fields].
  assert (∀ field,
            Py.dict_lookup field (apply_layer (apply_layer defaults own) overrides)
            = layered overrides own defaults field) as Hfields.
  { intros field. unfold layered. by rewrite !dict_lookup_apply_layer. }
  split_and!; [done|exact Hfields|].
  intros Hd Ho Hov. rewrite Hfields. unfold layered. by rewrite Hov.
Qed.

Lemma get_repo_layered_witness :
  get_repo (Sample.config_of VNone Sample.layers) (VStr "foo")
  = Ok (VStr "foo",
        VDict [("url", VStr "https://example.org/foo.git")],
        VDict [("branch", VStr "main"); ("type", VStr "git")],
        Some "/a",
        VDict [("branch", VStr "release")])
  ∧ ∃ h : RepoHandle,
      get_repo (K := with_spec_repos Sample.kas)
        (mkConfig (K := with_spec_repos Sample.kas) VNone VNone Sample.layers
                  ["/a/kas.yml"] (["/a/kas.yml"], Some "/a", true) [])
        (VStr "foo") = Ok h
      ∧ rh_name h = VStr "foo"
      ∧ rh_fields h = [("branch", VStr "release"); ("type", VStr "git");
                       ("url", VStr "https://example.org/foo.git")]
      ∧ Py.dict_lookup "branch" (rh_fields h) = Some (VStr "release")
      ∧ Py.dict_lookup "type" (rh_fields h) = Some (VStr "git")
      ∧ Py.dict_lookup "url" (rh_fields h)
        = Some (VStr "https://example.org/foo.git").
Proof.
  destruct (get_repo_layered (OP := Sample.os_path) (RT := Sample.runtime) Sample.kas
              (Sample.config_of VNone Sample.layers) "foo"
              [("foo", VDict [("url", VStr "https://example.org/foo.git")])]
              [("url", VStr "https://example.org/foo.git")]
              [("branch", VStr "main"); ("type", VStr "git")]
              [("branch", VStr "release")]
              [("repos", VDict [("branch", VStr "main"); ("type", VStr "git")])]
              [("repos", VDict [("foo", VDict [("branch", VStr "release")])])]
              [("foo", VDict [("branch", VStr "release")])]
              (VDict [("url", VStr "https://example.org/foo.git")])
              eq_refl eq_refl eq_refl eq_refl eq_refl eq_refl eq_refl eq_refl
              ltac:(compute_done) ltac:(compute_done))
    as [Hcode Hspec].
  split; [exact Hcode|].
  destruct (Hspec
              (mkConfig (K := with_spec_repos Sample.kas) VNone VNone Sample.layers
                        ["/a/kas.yml"] (["/a/kas.yml"], Some "/a", true) [])
              eq_refl)
    as (h & Hh & Hname & Hfields & Hbranch).
  exists h. split_and!; [exact Hh|exact Hname| |by apply Hbranch|..].
  - vm_compute in Hh. by injection Hh as <-.
  - by rewrite Hfields.
  - by rewrite Hfields.
Defined.

Example get_repo_layered_ex :
  rh_fields <$>
    (match get_repo (K := with_spec_repos Sample.kas)
             (mkConfig (K := with_spec_repos Sample.kas) VNone VNone Sample.merged
                       ["/a/kas.yml"] (["/a/kas.yml"], Some "/a", true) [])
             (VStr "meta-custom")
     with Ok h => Some h | Raise _ => None end)
  = Some [("branch", VStr "next");
          ("url", VStr "https://example.org/meta-custom.git")].
Proof. vm_compute. reflexivity. Qed.

(** * Further properties *)

(** ** Construction, continued *)

Lemma split_on_no_separator sep s :
  sep ∉ list_ascii_of_string s → Py.split_on sep s = [s].
Proof.
  induction s as [|c s IH]; [done|]. simpl.
  rewrite not_elem_of_cons. intros [Hne Hnotin].
  destruct (Ascii.eqb_spec c sep); [congruence|]. by rewrite IH.
Qed.

Section ConstructionMore.
Context {OP : OsPath} {RT : PyRuntime} {K : KasLib}.

Lemma several_roots_elements (files files' : list string) :
  (∀ f, f ∈ files ↔ f ∈ files') →
  several_roots files ∨ mixed_membership files →
  several_roots files' ∨ mixed_membership files'.
Proof.
  intros Hsame [(f & g & r & r' & Hf & Hg & H')|(f & g & r & Hf & Hg & H')];
    [left; exists f, g, r, r'|right; exists f, g, r];
    (split; [by apply Hsame|split; [by apply Hsame|done]]).
Qed.

(** The exception of the constructor is raised in no other case than
    differing roots. *)
Lemma Config_init_raises_iff filename target task update :
  Config_init filename target task update = Raise (IncludeException mixed_roots_msg)
  ↔ several_roots (config_files filename) ∨ mixed_membership (config_files filename).
Proof.
  rewrite <- roots_differ_iff. unfold Config_init. fold (config_files filename).
  pose proof (config_files_nonempty filename) as Hne.
  destruct (config_files filename) as [|first rest] eqn:Efiles; [done|].
  change ((λ configfile, Repo_get_root_path (dirname configfile) false)
            <$> first :: rest) with (root_of <$> first :: rest).
  case_bool_decide; [done|]. rewrite get_repo_dict_empty. unfold_result.
  split; [discriminate|done].
Qed.

(** X2: a file name without a colon names one file, and for one file the
    check of the roots cannot fail: the exception about differing roots is
    not raised. *)
Theorem Config_init_single_file filename target task update :
  ":"%char ∉ list_ascii_of_string filename →
  config_files filename = [abspath filename]
  ∧ ¬ (several_roots (config_files filename)
       ∨ mixed_membership (config_files filename))
  ∧ Config_init filename target task update
    ≠ Raise (IncludeException mixed_roots_msg).
Proof.
  intros Hcolon.
  assert (config_files filename = [abspath filename]) as Hfiles.
  { unfold config_files. by rewrite (split_on_no_separator _ _ Hcolon). }
  assert (¬ (several_roots (config_files filename)
             ∨ mixed_membership (config_files filename))) as Hcheck.
  { rewrite Hfiles, <- roots_differ_iff, size_list_to_set_gt_1.
    intros (x & y & Hx & Hy & Hne).
    apply list_elem_of_singleton in Hx, Hy. congruence. }
  split_and!; [done..|]. by rewrite Config_init_raises_iff.
Qed.

(** X3: whether construction raises depends on the set of files only: two
    file lists with the same absolute paths, in any order and with any
    repetition, are both accepted or both rejected. *)
Theorem Config_init_order_irrelevant filename filename' target task update :
  (∀ f, f ∈ config_files filename ↔ f ∈ config_files filename') →
  (Config_init filename target task update = Raise (IncludeException mixed_roots_msg)
   ↔ Config_init filename' target task update = Raise (IncludeException mixed_roots_msg)).
Proof.
  intros Hsame. rewrite !Config_init_raises_iff.
  split; apply several_roots_elements; [done|]. intros f. by rewrite Hsame.
Qed.

End ConstructionMore.

Lemma Config_init_single_file_witness :
  config_files (OP := Sample.os_path) "/srv/kas.yml" = ["/srv/kas.yml"]
  ∧ ¬ (several_roots (OP := Sample.os_path) (K := Sample.kas)
         (config_files (OP := Sample.os_path) "/srv/kas.yml")
       ∨ mixed_membership (OP := Sample.os_path) (K := Sample.kas)
           (config_files (OP := Sample.os_path) "/srv/kas.yml"))
  ∧ Config_init (OP := Sample.os_path) (K := Sample.kas) "/srv/kas.yml" VNone VNone true
    ≠ Raise (IncludeException mixed_roots_msg).
Proof.
  refine (Config_init_single_file (OP := Sample.os_path) (K := Sample.kas)
            "/srv/kas.yml" VNone VNone true _).
  vm_compute. intros Hin. repeat (inversion Hin as [|? ? ? Hin']; clear Hin;
                                   rename Hin' into Hin).
Defined.

Lemma Config_init_order_irrelevant_witness :
  Config_init (OP := Sample.os_path) (K := Sample.kas)
    "/a/kas.yml:/b/extra.yml" VNone VNone false
    = Raise (IncludeException mixed_roots_msg)
  ↔ Config_init (OP := Sample.os_path) (K := Sample.kas)
      "/b/extra.yml:/a/kas.yml:/b/extra.yml" VNone VNone false
    = Raise (IncludeException mixed_roots_msg).
Proof.
  refine (Config_init_order_irrelevant (OP := Sample.os_path) (K := Sample.kas)
            "/a/kas.yml:/b/extra.yml" "/b/extra.yml:/a/kas.yml:/b/extra.yml"
            VNone VNone false _).
  intros f. vm_compute config_files.
  rewrite !elem_of_cons, !elem_of_nil. tauto.
Defined.

(** ** Task, distro and targets, continued *)

Lemma single_char_not_multiconfig (c : ascii) :
  Py.startswith (String c "") "multiconfig:" || Py.startswith (String c "") "mc:"
  = false.
Proof.
  unfold Py.startswith.
  change (String.prefix "multiconfig:" (String c ""))
    with (if ascii_dec "m" c then String.prefix "ulticonfig:" "" else false).
  change (String.prefix "mc:" (String c ""))
    with (if ascii_dec "m" c then String.prefix "c:" "" else false).
  by destruct (ascii_dec "m" c).
Qed.

Lemma set_iter_nil {RT : PyRuntime} : set_iter [] = [].
Proof.
  destruct (set_iter []) as [|x l] eqn:E; [done|].
  assert (x ∈ @nil string) as Hx by (apply set_iter_elem_of; rewrite E; left).
  inversion Hx.
Qed.

Section FacadeMore.
Context {OP : OsPath} {RT : PyRuntime} {K : KasLib}.

(** X4: the task is the override when that is truthy; otherwise the value of
    [KAS_TASK] whenever the variable is set, also when it is empty;
    otherwise the [task] of the configuration, and "build" without one. *)
Theorem get_bitbake_task_precedence (self : Config) (env : environ) :
  (Py.truthy (_override_task self) = true →
     get_bitbake_task self env = _override_task self)
  ∧ (Py.truthy (_override_task self) = false →
     (∀ v, env !! "KAS_TASK" = Some v → get_bitbake_task self env = VStr v)
     ∧ (env !! "KAS_TASK" = None →
        (∀ t, Py.dict_lookup "task" (_config self) = Some t →
              get_bitbake_task self env = t)
        ∧ (Py.dict_lookup "task" (_config self) = None →
           get_bitbake_task self env = VStr "build"))).
Proof.
  unfold get_bitbake_task, environ_get, Py.dict_get.
  split; [by intros ->|]. intros ->. split.
  - by intros v ->.
  - intros ->. split; [by intros t ->|by intros ->].
Qed.

(** X5: the distro is the value of [KAS_DISTRO] when the variable is set;
    otherwise the [distro] of the configuration, and "poky" without one. *)
Theorem get_distro_precedence (self : Config) (env : environ) :
  (∀ v, env !! "KAS_DISTRO" = Some v → get_distro self env = VStr v)
  ∧ (env !! "KAS_DISTRO" = None →
     (∀ d, Py.dict_lookup "distro" (_config self) = Some d →
           get_distro self env = d)
     ∧ (Py.dict_lookup "distro" (_config self) = None →
        get_distro self env = VStr "poky")).
Proof.
  unfold get_distro, environ_get, Py.dict_get. split.
  - by intros v ->.
  - intros ->. split; [by intros d ->|by intros ->].
Qed.

(** X6: without a truthy override, a [KAS_TARGET] that is not blank decides
    the targets alone: the result is a non-empty list of strings, none of
    them empty, none holding whitespace, and it is the same whatever the
    configuration says. *)
Theorem environ_targets_are_tokens (self : Config) (env : environ) (s : string) :
  Py.truthy (_override_target self) = false →
  env !! "KAS_TARGET" = Some s →
  ¬ Py.all_space s →
  (∃ tokens,
     get_bitbake_targets self env = VList (VStr <$> tokens)
     ∧ tokens ≠ []
     ∧ Forall (λ w, w ≠ ""
                    ∧ Forall (λ c, Py.isspace c = false) (list_ascii_of_string w))
              tokens)
  ∧ ∀ merged, get_bitbake_targets (set_config self merged) env
              = get_bitbake_targets self env.
Proof.
  intros Hov Henv Hblank. rewrite <- split_nil_iff in Hblank. split.
  - exists (Py.split s). rewrite get_bitbake_targets_eq, Hov, Henv. simpl.
    split_and!; [by destruct (Py.split s)|done|].
    apply Forall_and. split; [apply split_tokens_nonempty|apply split_tokens_no_space].
  - intros merged. rewrite !get_bitbake_targets_eq. simpl. rewrite Hov, Henv. simpl.
    by destruct (Py.split s).
Qed.

Lemma scan_multiconfig_chars (s : string) (added : list string) :
  scan_multiconfig (Py.chars s) added = Ok added.
Proof.
  unfold Py.chars. induction s as [|c s IH]; [done|].
  change (list_ascii_of_string (String c s)) with (c :: list_ascii_of_string s).
  rewrite fmap_cons.
  change (scan_multiconfig (VStr (String c "") :: ?l) added)
    with (if Py.startswith (String c "") "multiconfig:"
             || Py.startswith (String c "") "mc:"
          then match Py.split_on ":" (String c "") with
               | _ :: field :: _ => scan_multiconfig l (field :: added)
               | _ => Raise IndexError
               end
          else scan_multiconfig l added).
  by rewrite single_char_not_multiconfig.
Qed.

(** X7: an override target given as one string, not as a list, is returned
    as that string, and [get_multiconfig], which then walks its characters,
    finds no multiconfig in it, whatever the string says. *)
Theorem string_override_has_no_multiconfig (self : Config) (env : environ) (s : string) :
  _override_target self = VStr s →
  s ≠ "" →
  get_bitbake_targets self env = VStr s
  ∧ get_multiconfig self env = Ok "".
Proof.
  intros Hov Hs.
  assert (get_bitbake_targets self env = VStr s) as Htargets.
  { rewrite get_bitbake_targets_eq, Hov. simpl.
    by destruct (String.eqb_spec s ""). }
  split; [done|]. unfold get_multiconfig. rewrite Htargets. simpl. unfold_result.
  rewrite scan_multiconfig_chars. by rewrite set_iter_nil.
Qed.

Lemma scan_multiconfig_non_string (targets : list value) (added : list string) :
  (∃ v, v ∈ targets ∧ Py.is_str v = false) →
  scan_multiconfig targets added = Raise AttributeError.
Proof.
  intros (v & Hv & Hstr). revert added.
  induction targets as [|t targets IH]; intros added; [inversion Hv|].
  destruct t as [| | |target| |]; try reflexivity.
  apply elem_of_cons in Hv as [->|Hv]; [done|]. specialize (IH Hv). simpl.
  destruct (Py.startswith target "multiconfig:" || Py.startswith target "mc:") eqn:Et;
    [|apply IH].
  destruct (multiconfig_prefix_second_field target Et) as (w & x & ws & ->).
  apply IH.
Qed.

(** X8: a target that is not a string, such as a number in the target list of
    the configuration, makes [get_multiconfig] raise [AttributeError],
    wherever it stands in the list. *)
Theorem get_multiconfig_non_string_target (self : Config) (env : environ)
    (targets : list value) :
  Py.iter (get_bitbake_targets self env) = Ok targets →
  (∃ v, v ∈ targets ∧ Py.is_str v = false) →
  get_multiconfig self env = Raise AttributeError.
Proof.
  intros Hiter Hbad. unfold get_multiconfig. rewrite Hiter. unfold_result.
  by rewrite scan_multiconfig_non_string.
Qed.

End FacadeMore.

Lemma get_bitbake_task_precedence_witness :
  get_bitbake_task
    (mkConfig (K := Sample.kas) VNone (VStr "fetch") [("task", VStr "populate_sdk")]
              [] ([], None, true) [])
    {[ "KAS_TASK" := "clean" ]}
  = VStr "fetch"
  ∧ get_bitbake_task (Sample.config_of VNone [("task", VStr "populate_sdk")])
      {[ "KAS_TASK" := "" ]}
    = VStr ""
  ∧ get_bitbake_task (Sample.config_of VNone [("task", VStr "populate_sdk")]) ∅
    = VStr "populate_sdk"
  ∧ get_bitbake_task (Sample.config_of VNone []) ∅ = VStr "build".
Proof.
  split_and!.
  - exact (proj1 (get_bitbake_task_precedence (K := Sample.kas)
                    (mkConfig (K := Sample.kas) VNone (VStr "fetch")
                       [("task", VStr "populate_sdk")] [] ([], None, true) [])
                    {[ "KAS_TASK" := "clean" ]}) eq_refl).
  - exact (proj1 (proj2 (get_bitbake_task_precedence (K := Sample.kas)
                    (Sample.config_of VNone [("task", VStr "populate_sdk")])
                    {[ "KAS_TASK" := "" ]}) eq_refl) _ eq_refl).
  - exact (proj1 (proj2 (proj2 (get_bitbake_task_precedence (K := Sample.kas)
                    (Sample.config_of VNone [("task", VStr "populate_sdk")]) ∅)
                    eq_refl) eq_refl) _ eq_refl).
  - exact (proj2 (proj2 (proj2 (get_bitbake_task_precedence (K := Sample.kas)
                    (Sample.config_of VNone []) ∅) eq_refl) eq_refl) eq_refl).
Defined.

Lemma get_distro_precedence_witness :
  get_distro (Sample.config_of VNone [("distro", VStr "poky-tiny")])
      {[ "KAS_DISTRO" := "nodistro" ]}
    = VStr "nodistro"
  ∧ get_distro (Sample.config_of VNone [("distro", VStr "poky-tiny")]) ∅
    = VStr "poky-tiny"
  ∧ get_distro (Sample.config_of VNone []) ∅ = VStr "poky".
Proof.
  split_and!.
  - exact (proj1 (get_distro_precedence (K := Sample.kas)
                    (Sample.config_of VNone [("distro", VStr "poky-tiny")])
                    {[ "KAS_DISTRO" := "nodistro" ]}) _ eq_refl).
  - exact (proj1 (proj2 (get_distro_precedence (K := Sample.kas)
                    (Sample.config_of VNone [("distro", VStr "poky-tiny")]) ∅)
                    eq_refl) _ eq_refl).
  - exact (proj2 (proj2 (get_distro_precedence (K := Sample.kas)
                    (Sample.config_of VNone []) ∅) eq_refl) eq_refl).
Defined.

Lemma environ_targets_are_tokens_witness :
  (∃ tokens,
     get_bitbake_targets (Sample.config_of VNone [("target", VStr "my-image")])
       {[ "KAS_TARGET" := " zephyr  core-image-sato " ]}
     = VList (VStr <$> tokens)
     ∧ tokens ≠ []
     ∧ Forall (λ w, w ≠ ""
                    ∧ Forall (λ c, Py.isspace c = false) (list_ascii_of_string w))
              tokens)
  ∧ ∀ merged,
      get_bitbake_targets
        (set_config (Sample.config_of VNone [("target", VStr "my-image")]) merged)
        {[ "KAS_TARGET" := " zephyr  core-image-sato " ]}
      = get_bitbake_targets (Sample.config_of VNone [("target", VStr "my-image")])
          {[ "KAS_TARGET" := " zephyr  core-image-sato " ]}.
Proof.
  refine (environ_targets_are_tokens (K := Sample.kas)
            (Sample.config_of VNone [("target", VStr "my-image")])
            {[ "KAS_TARGET" := " zephyr  core-image-sato " ]}
            " zephyr  core-image-sato " eq_refl eq_refl _).
  intros Hblank. apply split_nil_iff in Hblank. vm_compute in Hblank. discriminate.
Defined.

Lemma string_override_has_no_multiconfig_witness :
  get_bitbake_targets (Sample.config_of (VStr "mc:qemu:core-image-sato") []) ∅
    = VStr "mc:qemu:core-image-sato"
  ∧ get_multiconfig (RT := Sample.runtime)
      (Sample.config_of (VStr "mc:qemu:core-image-sato") []) ∅
    = Ok "".
Proof.
  refine (string_override_has_no_multiconfig (RT := Sample.runtime) (K := Sample.kas)
            (Sample.config_of (VStr "mc:qemu:core-image-sato") []) ∅
            "mc:qemu:core-image-sato" eq_refl _).
  discriminate.
Defined.

Lemma get_multiconfig_non_string_target_witness :
  get_multiconfig (RT := Sample.runtime)
    (Sample.config_of VNone
       [("target", VList [VStr "mc:qemu:core-image-sato"; VInt 7; VStr "img"])]) ∅
  = Raise AttributeError.
Proof.
  refine (get_multiconfig_non_string_target (RT := Sample.runtime) (K := Sample.kas)
            (Sample.config_of VNone
               [("target", VList [VStr "mc:qemu:core-image-sato"; VInt 7; VStr "img"])])
            ∅ [VStr "mc:qemu:core-image-sato"; VInt 7; VStr "img"] eq_refl _).
  exists (VInt 7). split; [right; left|reflexivity].
Defined.

(** ** Repositories, continued *)

Section ReposMore.
Context {OP : OsPath} {RT : PyRuntime} {K : KasLib}.

(** X9: asking for a repository that the [repos] table does not name raises
    [KeyError], once the defaults and overrides have been read; the factory is
    not reached. *)
Theorem get_repo_unknown_name (self : Config) (name : string) (repos : dict)
    (defaults overrides : value) :
  get_repos_config self = VDict repos →
  Py.dict_lookup name repos = None →
  repo_defaults_of self = Ok defaults →
  overrides_of self (VStr name) = Ok overrides →
  get_repo self (VStr name) = Raise KeyError.
Proof.
  intros Hrepos Hname Hdefaults Hoverrides. unfold get_repo.
  rewrite Hdefaults, Hoverrides, Hrepos. unfold_result. simpl. by rewrite Hname.
Qed.

(** X10: an entry of the [repos] table that is falsy, such as a name with no
    value, reaches the factory as the empty dictionary. *)
Theorem get_repo_falsy_entry (self : Config) (name : string) (repos : dict)
    (entry defaults overrides : value) :
  get_repos_config self = VDict repos →
  Py.dict_lookup name repos = Some entry →
  Py.truthy entry = false →
  repo_defaults_of self = Ok defaults →
  overrides_of self (VStr name) = Ok overrides →
  get_repo self (VStr name)
  = Repo_factory (VStr name) (VDict []) defaults
      (get_top_repo_path (handler self)) overrides.
Proof.
  intros Hrepos Hname Hfalsy Hdefaults Hoverrides. unfold get_repo.
  rewrite Hdefaults, Hoverrides, Hrepos. unfold_result. simpl.
  by rewrite Hname, Hfalsy.
Qed.

(** X11: when the [defaults] entry of the configuration is not a dictionary,
    every [get_repo] raises [AttributeError], whatever the name; so it does
    when the defaults can be read and the [overrides] entry is not a
    dictionary. *)
Theorem get_repo_malformed_tables (self : Config) (v : value) :
  (∀ d, v ≠ VDict d) →
  (Py.dict_lookup "defaults" (_config self) = Some v →
   ∀ name, get_repo self name = Raise AttributeError)
  ∧ (Py.dict_lookup "overrides" (_config self) = Some v →
     ∀ defaults, repo_defaults_of self = Ok defaults →
     ∀ name, get_repo self name = Raise AttributeError).
Proof.
  intros Hv. split.
  - intros Hlookup name. unfold get_repo, repo_defaults_of, Py.dict_get.
    rewrite Hlookup. destruct v; try reflexivity. by destruct (Hv d).
  - intros Hlookup defaults Hdefaults name.
    unfold get_repo, overrides_of, Py.dict_get. rewrite Hdefaults, Hlookup.
    destruct v; try reflexivity. by destruct (Hv d).
Qed.

(** X13: [get_repos] is all or nothing: when a repository of the [repos]
    table cannot be built, [get_repos] raises the exception of such a
    repository and returns no handle. *)
Theorem get_repos_all_or_nothing (self : Config) (repos : dict) (name : string)
    (e : exn) :
  get_repos_config self = VDict repos →
  dict_wf repos →
  name ∈ repos.*1 →
  get_repo self (VStr name) = Raise e →
  ∃ name' e', name' ∈ repos.*1
              ∧ get_repo self (VStr name') = Raise e'
              ∧ get_repos self = Raise e'.
Proof.
  intros Hrepos Hwf Hname Hfail.
  unfold get_repos, _get_repo_dict. rewrite Hrepos. simpl. unfold_result.
  destruct (collect_repos_keys self repos.*1 [] Hwf ltac:(constructor))
    as [(hs & Hall & _)|(k & e' & Hk & He' & ->)].
  - exfalso. apply list_elem_of_lookup in Hname as [i Hi].
    destruct (Forall2_lookup_l _ _ _ _ _ Hall Hi) as (h & _ & Hh). congruence.
  - by exists k, e'.
Qed.

(** X14: without a [repos] entry in the configuration [get_repos] returns no
    handle and empties the cached table; with a [repos] entry that is [None],
    a boolean or a number it raises [TypeError]. *)
Theorem get_repos_without_table (self : Config) :
  (Py.dict_lookup "repos" (_config self) = None →
   get_repos self = Ok (set_repo_dict self [], []))
  ∧ (∀ v, Py.dict_lookup "repos" (_config self) = Some v →
          v = VNone ∨ (∃ b, v = VBool b) ∨ (∃ z, v = VInt z) →
          get_repos self = Raise TypeError).
Proof.
  unfold get_repos, _get_repo_dict, get_repos_config, Py.dict_get. split.
  - by intros ->.
  - intros v -> [->|[[b ->]|[z ->]]]; reflexivity.
Qed.

End ReposMore.

Lemma get_repo_unknown_name_witness :
  get_repo (Sample.config_of VNone Sample.merged) (VStr "meta-missing")
  = Raise KeyError.
Proof.
  exact (get_repo_unknown_name (K := Sample.kas)
           (Sample.config_of VNone Sample.merged) "meta-missing"
           [("foo", VNone);
            ("meta-custom", VDict [("url", VStr "https://example.org/meta-custom.git");
                                   ("branch", VStr "next")])]
           (VDict [("branch", VStr "main")]) (VDict [])
           eq_refl eq_refl eq_refl eq_refl).
Defined.

Lemma get_repo_falsy_entry_witness :
  get_repo (Sample.config_of VNone Sample.merged) (VStr "foo")
  = Ok (VStr "foo", VDict [], VDict [("branch", VStr "main")], Some "/a",
        VDict [("branch", VStr "release")]).
Proof.
  exact (get_repo_falsy_entry (K := Sample.kas)
           (Sample.config_of VNone Sample.merged) "foo"
           [("foo", VNone);
            ("meta-custom", VDict [("url", VStr "https://example.org/meta-custom.git");
                                   ("branch", VStr "next")])]
           VNone (VDict [("branch", VStr "main")]) (VDict [("branch", VStr "release")])
           eq_refl eq_refl eq_refl eq_refl eq_refl).
Defined.

Lemma get_repo_malformed_tables_witness :
  (∀ name,
     get_repo (Sample.config_of VNone
                 [("defaults", VNone); ("repos", VDict [("foo", VNone)])]) name
     = Raise AttributeError)
  ∧ (∀ name,
       get_repo (Sample.config_of VNone
                   [("overrides", VNone); ("repos", VDict [("foo", VNone)])]) name
       = Raise AttributeError).
Proof.
  split.
  - exact (proj1 (get_repo_malformed_tables (K := Sample.kas)
                    (Sample.config_of VNone
                       [("defaults", VNone); ("repos", VDict [("foo", VNone)])])
                    VNone ltac:(discriminate)) eq_refl).
  - exact (proj2 (get_repo_malformed_tables (K := Sample.kas)
                    (Sample.config_of VNone
                       [("overrides", VNone); ("repos", VDict [("foo", VNone)])])
                    VNone ltac:(discriminate)) eq_refl (VDict []) eq_refl).
Defined.

Lemma get_repos_all_or_nothing_witness :
  ∃ name' e',
    name' ∈ ["foo"; "bar"]
    ∧ get_repo (Sample.config_of VNone
                  [("defaults", VInt 1);
                   ("repos", VDict [("foo", VNone); ("bar", VNone)])])
        (VStr name') = Raise e'
    ∧ get_repos (Sample.config_of VNone
                   [("defaults", VInt 1);
                    ("repos", VDict [("foo", VNone); ("bar", VNone)])])
      = Raise e'.
Proof.
  exact (get_repos_all_or_nothing (K := Sample.kas)
           (Sample.config_of VNone
              [("defaults", VInt 1);
               ("repos", VDict [("foo", VNone); ("bar", VNone)])])
           [("foo", VNone); ("bar", VNone)] "bar" AttributeError
           eq_refl ltac:(compute_done) ltac:(right; left) eq_refl).
Defined.

Lemma get_repos_without_table_witness :
  get_repos (Sample.config_of VNone [("machine", VStr "qemuarm")])
    = Ok (set_repo_dict (Sample.config_of VNone [("machine", VStr "qemuarm")]) [], [])
  ∧ get_repos (Sample.config_of VNone [("repos", VNone)]) = Raise TypeError.
Proof.
  split.
  - exact (proj1 (get_repos_without_table (K := Sample.kas)
                    (Sample.config_of VNone [("machine", VStr "qemuarm")])) eq_refl).
  - exact (proj2 (get_repos_without_table (K := Sample.kas)
                    (Sample.config_of VNone [("repos", VNone)]))
                 VNone eq_refl (or_introl eq_refl)).
Defined.

(** ** Headers and environment, continued *)

Lemma seq_index_raises {A} (l : list A) (i : Z) (e : exn) :
  Py.seq_index l i = Raise e → e = IndexError.
Proof. unfold Py.seq_index. repeat case_match; congruence. Qed.

Section HeadersMore.
Context {OP : OsPath} {RT : PyRuntime} {K : KasLib}.

(** X15: a header that the configuration does not have renders as the empty
    string; a header entry that is not a dictionary raises
    [AttributeError]. *)
Theorem conf_header_absent_or_malformed (self : Config) (name : string) :
  (Py.dict_lookup name (_config self) = None → _get_conf_header self name = Ok "")
  ∧ (∀ v, Py.dict_lookup name (_config self) = Some v →
          (∀ d, v ≠ VDict d) →
          _get_conf_header self name = Raise AttributeError).
Proof.
  unfold _get_conf_header, Py.dict_get. split.
  - by intros ->.
  - intros v -> Hv. destruct v; try reflexivity. by destruct (Hv d).
Qed.

Lemma collect_environment_agree (declared : value) (env env' : environ)
    (vars : list value) (acc : dict) :
  (∀ k, VStr k ∈ vars → env !! k = env' !! k) →
  collect_environment declared env vars acc
  = collect_environment declared env' vars acc.
Proof.
  revert acc. induction vars as [|var vars IH]; intros acc Hagree; [done|].
  simpl. destruct (Py.getitem declared var) as [dflt|]; [|done]. unfold_result.
  destruct var as [| | |k| |]; try done.
  unfold environ_get. rewrite (Hagree k) by left.
  apply IH. intros k' Hk'. apply Hagree. by right.
Qed.

Lemma collect_environment_list_head (v : value) (l rest : list value)
    (env : environ) (acc : dict) :
  collect_environment (VList (v :: l)) env (v :: rest) acc = Raise TypeError
  ∨ collect_environment (VList (v :: l)) env (v :: rest) acc = Raise IndexError.
Proof.
  cbn [collect_environment]. destruct v as [|b|z|s|l'|d]; try (by left).
  - cbn [Py.getitem].
    destruct (Py.seq_index (VBool b :: l) (if b then 1 else 0)) as [x|e] eqn:E;
      [by left|].
    apply seq_index_raises in E as ->. by right.
  - cbn [Py.getitem].
    destruct (Py.seq_index (VInt z :: l) z) as [x|e] eqn:E; [by left|].
    apply seq_index_raises in E as ->. by right.
Qed.

(** X16: [get_environment] reads the process environment at the declared
    variables only: two environments that agree on the names of the [env]
    table give the same result, also the same exception. *)
Theorem get_environment_declared_only (self : Config) (env env' : environ)
    (vars : list value) :
  Py.iter (Py.dict_get (_config self) "env" (VDict [])) = Ok vars →
  (∀ k, VStr k ∈ vars → env !! k = env' !! k) →
  get_environment self env = get_environment self env'.
Proof.
  intros Hiter Hagree. unfold get_environment. rewrite Hiter. unfold_result.
  by apply collect_environment_agree.
Qed.

(** X17: an [env] entry written as a non-empty list, not as a dictionary,
    never works: [get_environment] raises [TypeError] or [IndexError]. *)
Theorem get_environment_list_raises (self : Config) (env : environ)
    (v : value) (l : list value) :
  Py.dict_lookup "env" (_config self) = Some (VList (v :: l)) →
  get_environment self env = Raise TypeError
  ∨ get_environment self env = Raise IndexError.
Proof.
  intros Hlookup. unfold get_environment, Py.dict_get. rewrite Hlookup.
  cbn -[collect_environment]. unfold_result. apply collect_environment_list_head.
Qed.

End HeadersMore.

Lemma conf_header_absent_or_malformed_witness :
  get_local_conf_header (RT := Sample.runtime) (Sample.config_of VNone []) = Ok ""
  ∧ get_bblayers_conf_header (RT := Sample.runtime)
      (Sample.config_of VNone [("bblayers_conf_header", VStr "BBPATH = x")])
    = Raise AttributeError.
Proof.
  split.
  - exact (proj1 (conf_header_absent_or_malformed (RT := Sample.runtime)
                    (K := Sample.kas) (Sample.config_of VNone [])
                    "local_conf_header") eq_refl).
  - exact (proj2 (conf_header_absent_or_malformed (RT := Sample.runtime)
                    (K := Sample.kas)
                    (Sample.config_of VNone
                       [("bblayers_conf_header", VStr "BBPATH = x")])
                    "bblayers_conf_header")
                 (VStr "BBPATH = x") eq_refl ltac:(discriminate)).
Defined.

Lemma get_environment_declared_only_witness :
  get_environment
    (Sample.config_of VNone [("env", VDict [("DL_DIR", VStr "/dl")])])
    {[ "DL_DIR" := "/srv/downloads"; "HOME" := "/root" ]}
  = get_environment
      (Sample.config_of VNone [("env", VDict [("DL_DIR", VStr "/dl")])])
      {[ "DL_DIR" := "/srv/downloads" ]}.
Proof.
  refine (get_environment_declared_only (K := Sample.kas)
            (Sample.config_of VNone [("env", VDict [("DL_DIR", VStr "/dl")])])
            {[ "DL_DIR" := "/srv/downloads"; "HOME" := "/root" ]}
            {[ "DL_DIR" := "/srv/downloads" ]}
            [VStr "DL_DIR"] eq_refl _).
  intros k Hk. apply list_elem_of_singleton in Hk. injection Hk as ->.
  reflexivity.
Defined.

Lemma get_environment_list_raises_witness :
  get_environment (Sample.config_of VNone [("env", VList [VStr "DL_DIR"])]) ∅
    = Raise TypeError
  ∨ get_environment (Sample.config_of VNone [("env", VList [VStr "DL_DIR"])]) ∅
    = Raise IndexError.
Proof.
  exact (get_environment_list_raises (K := Sample.kas)
           (Sample.config_of VNone [("env", VList [VStr "DL_DIR"])]) ∅
           (VStr "DL_DIR") [] eq_refl).
Defined.

(** ** The task list, continued *)

Section CheckoutMore.
Context {OP : OsPath} {RT : PyRuntime} {K : KasLib}.
Variable library_execute : command → ExecutionContext → result ExecutionContext.

Lemma run_commands_app (before after : list command) (ctx : ExecutionContext) :
  run_commands library_execute (before ++ after) ctx
  = (ctx' ← run_commands library_execute before ctx;
     run_commands library_execute after ctx').
Proof.
  revert ctx. induction before as [|cmd before IH]; intros ctx; [done|].
  cbn [app run_commands]. unfold_result.
  destruct (execute library_execute cmd ctx) as [ctx'|e]; [apply IH|done].
Qed.

(** X19: the task list stops at the first command that fails: when the
    commands before it have run and a command raises, the commands after it
    are not run and the exception is the result. *)
Theorem run_commands_aborts (before after : list command) (cmd : command)
    (ctx ctx' : ExecutionContext) (e : exn) :
  run_commands library_execute before ctx = Ok ctx' →
  execute library_execute cmd ctx' = Raise e →
  run_commands library_execute (before ++ cmd :: after) ctx = Raise e.
Proof.
  intros Hbefore Hcmd. rewrite run_commands_app, Hbefore. unfold_result.
  cbn [run_commands]. by rewrite Hcmd.
Qed.

(** X20: when the resolution made by [InitSetupRepos] fails, [kas_checkout]
    raises the exception of the include handler: the loop and the commands
    after it are not run. *)
Theorem kas_checkout_resolution_failure (ctx ctx1 : ExecutionContext) (e : exn) :
  library_execute SetupDir ctx = Ok ctx1 →
  handler_get_config (handler (config ctx1)) (VDict []) = Raise e →
  kas_checkout library_execute ctx = Raise e.
Proof.
  intros Hdir Hget. unfold kas_checkout, setup_commands.
  cbn [run_commands execute]. rewrite Hdir. unfold_result.
  unfold InitSetupRepos_execute, find_missing_repos. unfold_result.
  by rewrite Hget.
Qed.

End CheckoutMore.

Lemma kas_checkout_loop_entry_witness :
  ∃ ctx2,
    missing_repo_names_old ctx2 = None
    ∧ missing_repo_names ctx2 = Some ["meta-custom"]
    ∧ kas_checkout (K := Sample.kas) (λ _ ctx, Ok ctx)
        (mkContext (Sample.config_of VNone []) (Some []) (Some ["stale"]))
      = (ctx3 ← Ok ctx2;
         run_commands (K := Sample.kas) (λ _ ctx, Ok ctx)
           [FinishSetupRepos; ReposApplyPatches; SetupEnviron; WriteBBConfig] ctx3).
Proof.
  exact (kas_checkout_loop_entry (K := Sample.kas) (λ _ ctx, Ok ctx)
           (mkContext (Sample.config_of VNone []) (Some []) (Some ["stale"]))
           (mkContext (Sample.config_of VNone []) (Some []) (Some ["stale"]))
           Sample.merged ["meta-custom"] eq_refl eq_refl).
Defined.

Lemma run_commands_aborts_witness :
  run_commands (K := Sample.kas)
    (λ cmd ctx, match cmd with SetupReposStep => Raise KeyError | _ => Ok ctx end)
    ([SetupDir] ++ SetupReposStep :: [WriteBBConfig])
    (mkContext (Sample.config_of VNone []) None None)
  = Raise KeyError.
Proof.
  exact (run_commands_aborts (K := Sample.kas)
           (λ cmd ctx, match cmd with SetupReposStep => Raise KeyError
                                 | _ => Ok ctx end)
           [SetupDir] [WriteBBConfig] SetupReposStep
           (mkContext (Sample.config_of VNone []) None None)
           _ KeyError eq_refl eq_refl).
Defined.

Lemma kas_checkout_resolution_failure_witness :
  kas_checkout (K := Sample.failing_kas) (λ _ ctx, Ok ctx)
    (mkContext
       (mkConfig (K := Sample.failing_kas) VNone VNone [] ["/a/kas.yml"]
          (@IncludeHandler_new Sample.failing_kas ["/a/kas.yml"] (Some "/a") true) [])
       None None)
  = Raise (IncludeException "include cycle").
Proof.
  exact (kas_checkout_resolution_failure (K := Sample.failing_kas) (λ _ ctx, Ok ctx)
           (mkContext
              (mkConfig (K := Sample.failing_kas) VNone VNone [] ["/a/kas.yml"]
                 (@IncludeHandler_new Sample.failing_kas ["/a/kas.yml"] (Some "/a") true)
                 [])
              None None)
           _ (IncludeException "include cycle") eq_refl eq_refl).
Defined.
